(** * combinedicts: a shallow embedding of the dictionary scrapers

    The development follows [dictionary_scraper.py] and the worker of
    [dictionary_app.py].  A fetched page is a tree of tags and text nodes,
    the structural queries of the scrapers are functions over that tree,
    every [get_definition] is a function from the word and the remote
    documents to an entry, and the [try]/[except] around each scraper body
    is an explicit outcome type with its handler. *)

From Stdlib Require Import String Ascii List Lia Permutation.
From stdpp Require Import base option list strings pretty.

Set Warnings "-register-all".

(** ** Python strings

    A [str] is modelled by [string].  Character classes are those of the
    ASCII range ([str.isspace], [\s], [\d], [str.lower]); a character
    outside that range is carried through unchanged and belongs to no class.
    Literals such as the em-dash are their UTF-8 byte sequence, so that a
    prefix test on the model is the prefix test of the source. *)
Module Str.

Definition isspace (c : ascii) : bool :=
  let n := nat_of_ascii c in
  ((9 <=? n) && (n <=? 13)) || ((28 <=? n) && (n <=? 31)) || (n =? 32).

Definition isdigit (c : ascii) : bool :=
  let n := nat_of_ascii c in (48 <=? n) && (n <=? 57).

Definition lower_char (c : ascii) : ascii :=
  let n := nat_of_ascii c in
  if (65 <=? n) && (n <=? 90) then ascii_of_nat (n + 32) else c.

(** [s.lower()] *)
Fixpoint lower (s : string) : string :=
  match s with
  | EmptyString => EmptyString
  | String c r => String (lower_char c) (lower r)
  end.

(** [bool(s)]: a string is truthy when it is not empty. *)
Definition truthy (s : string) : bool :=
  match s with EmptyString => false | String _ _ => true end.

Fixpoint drop_while (p : ascii -> bool) (s : string) : string :=
  match s with
  | EmptyString => EmptyString
  | String c r => if p c then drop_while p r else s
  end.

(** [s.lstrip()], [s.rstrip()], [s.strip()] *)
Definition lstrip (s : string) : string := drop_while isspace s.
Definition rstrip (s : string) : string :=
  String.rev (drop_while isspace (String.rev s)).
Definition strip (s : string) : string := rstrip (lstrip s).

(** [s.split()]: the maximal runs of non-space characters, in order.
    [cur] is the run being read. *)
Fixpoint split_go (cur : string) (s : string) : list string :=
  match s with
  | EmptyString => if truthy cur then [cur] else []
  | String c r =>
      if isspace c
      then (if truthy cur then cur :: split_go EmptyString r
            else split_go EmptyString r)
      else split_go (cur +:+ String c EmptyString) r
  end.

Definition split (s : string) : list string := split_go EmptyString s.

(** [sep.join(parts)] *)
Fixpoint join (sep : string) (parts : list string) : string :=
  match parts with
  | [] => EmptyString
  | [p] => p
  | p :: rest => p +:+ sep +:+ join sep rest
  end.

(** [s.startswith(p)] *)
Fixpoint startswith (p s : string) : bool :=
  match p, s with
  | EmptyString, _ => true
  | String a p', String b s' => if ascii_dec a b then startswith p' s' else false
  | String _ _, EmptyString => false
  end.

(** [x in l] for a list of strings [l]. *)
Definition mem (x : string) (l : list string) : bool :=
  existsb (String.eqb x) l.

(** [c in s] for a single character [c]. *)
Fixpoint contains_char (c : ascii) (s : string) : bool :=
  match s with
  | EmptyString => false
  | String d r => if ascii_dec c d then true else contains_char c r
  end.

(** [s.replace(old, "")] for a non-empty [old]: every occurrence found by
    a left-to-right scan is removed.  [skip] counts the characters of the
    occurrence being removed that are still to be passed over. *)
Fixpoint remove_go (old : string) (skip : nat) (s : string) : string :=
  match s with
  | EmptyString => EmptyString
  | String c r =>
      match skip with
      | S k => remove_go old k r
      | O => if startswith old s
             then remove_go old (String.length old - 1) r
             else String c (remove_go old 0 r)
      end
  end.

Definition remove (old s : string) : string := remove_go old 0 s.

(** [s.split(sep, 1)[1]] when [sep in s]: what follows the first [sep]. *)
Fixpoint after_first (sep : ascii) (s : string) : string :=
  match s with
  | EmptyString => EmptyString
  | String c r => if ascii_dec c sep then r else after_first sep r
  end.

(** [s.split(sep)[-1]]: what follows the last [sep] (all of [s] when there
    is none).  [cur] is the segment read since the last separator. *)
Fixpoint last_segment_go (sep : ascii) (cur : string) (s : string) : string :=
  match s with
  | EmptyString => cur
  | String c r =>
      if ascii_dec c sep then last_segment_go sep EmptyString r
      else last_segment_go sep (cur +:+ String c EmptyString) r
  end.

Definition last_segment (sep : ascii) (s : string) : string :=
  last_segment_go sep EmptyString s.

End Str.

(** [DictionaryScraper.clean_text]: [" ".join(text.strip().split())]. *)
Definition clean_text (text : string) : string :=
  Str.join " " (Str.split (Str.strip text)).

(** ** The regular expressions of the scrapers

    Each substitution of the source is anchored or has a single shape, and is
    written as the function it computes. *)
Module Re.

Definition one_of (cs : string) (c : ascii) : bool := Str.contains_char c cs.

Definition drop_optional (cs : string) (s : string) : string :=
  match s with
  | String c r => if one_of cs c then r else s
  | EmptyString => s
  end.

(** [re.sub(r'^:\s*', '', s)] *)
Definition strip_colon (s : string) : string :=
  match s with
  | String ":" r => Str.drop_while Str.isspace r
  | _ => s
  end.

(** [re.sub(r'<[^>]*>', '', s)]: [pending] holds, reversed, the text read
    since an unclosed [<]; it is dropped when [>] closes it and kept when the
    string ends first. *)
Fixpoint strip_tags_go (pending : option string) (s : string) : string :=
  match s with
  | EmptyString =>
      match pending with
      | Some p => String.rev p
      | None => EmptyString
      end
  | String c r =>
      match pending with
      | Some p =>
          if ascii_dec c ">" then strip_tags_go None r
          else strip_tags_go (Some (String c p)) r
      | None =>
          if ascii_dec c "<" then strip_tags_go (Some (String c EmptyString)) r
          else String c (strip_tags_go None r)
      end
  end.

Definition strip_tags (s : string) : string := strip_tags_go None s.

(** [re.sub(r'^\s*\d+\s*[:.)]?\s*', '', s)] *)
Definition strip_numbering (s : string) : string :=
  match Str.drop_while Str.isspace s with
  | String c r =>
      if Str.isdigit c then
        let after_digits := Str.drop_while Str.isdigit r in
        let after_space := Str.drop_while Str.isspace after_digits in
        Str.drop_while Str.isspace (drop_optional ":.)" after_space)
      else s
  | EmptyString => s
  end.

(** [s] without the prefix [p] matched ignoring case ([p] in lower case). *)
Fixpoint drop_prefix_nocase (p s : string) : option string :=
  match p, s with
  | EmptyString, _ => Some s
  | String a p', String b s' =>
      if ascii_dec a (Str.lower_char b) then drop_prefix_nocase p' s' else None
  | String _ _, EmptyString => None
  end.

(** [re.sub(r'^example\s*[:.]\s*', '', s, flags=re.IGNORECASE)] *)
Definition strip_example_prefix (s : string) : string :=
  match drop_prefix_nocase "example" s with
  | Some r =>
      match Str.drop_while Str.isspace r with
      | String c r' => if one_of ":." c then Str.drop_while Str.isspace r' else s
      | EmptyString => s
      end
  | None => s
  end.

(** [re.sub(r'^\s*\(\s*=\s*|\s*\)\s*$', '', s)]: the opening [(=] and the
    closing [)] of a gloss, each with the white space around it. *)
Definition strip_gloss_open (s : string) : string :=
  match Str.drop_while Str.isspace s with
  | String "(" r =>
      match Str.drop_while Str.isspace r with
      | String "=" r' => Str.drop_while Str.isspace r'
      | _ => s
      end
  | _ => s
  end.

Definition strip_gloss_close (s : string) : string :=
  match Str.drop_while Str.isspace (String.rev s) with
  | String ")" r => String.rev (Str.drop_while Str.isspace r)
  | _ => s
  end.

Definition strip_gloss (s : string) : string :=
  strip_gloss_close (strip_gloss_open s).

End Re.

(** ** The parsed document

    [fetch_page] hands the scrapers a BeautifulSoup tree.  A node is a tag
    with its name, attributes and contents, or a string of text.  The
    [class] attribute is kept as written and read as its white-space
    separated list of names. *)
Inductive node : Type :=
| Tag (name : string) (attrs : list (string * string)) (contents : list node)
| NavigableString (s : string).

Module Soup.

(** [elem.name] *)
Definition name (n : node) : string :=
  match n with Tag nm _ _ => nm | NavigableString _ => "" end.

(** [elem.attrs.get(key)] *)
Fixpoint lookup_attr (key : string) (attrs : list (string * string)) : option string :=
  match attrs with
  | [] => None
  | (k, v) :: rest => if String.eqb k key then Some v else lookup_attr key rest
  end.

Definition attr (key : string) (n : node) : option string :=
  match n with
  | Tag _ attrs _ => lookup_attr key attrs
  | NavigableString _ => None
  end.

(** [elem.get(key, "")] *)
Definition get (key : string) (n : node) : string := default "" (attr key n).

(** [elem.get("class", [])] *)
Definition classes (n : node) : list string := Str.split (get "class" n).

(** [elem.descendants]: every node below [n], in document order. *)
Fixpoint descendants (n : node) : list node :=
  match n with
  | NavigableString _ => []
  | Tag _ _ cs =>
      (fix go (l : list node) : list node :=
         match l with
         | [] => []
         | c :: l' => c :: descendants c ++ go l'
         end) cs
  end.

(** [elem.text]: the strings below [n], concatenated in document order. *)
Fixpoint text (n : node) : string :=
  match n with
  | NavigableString s => s
  | Tag _ _ cs =>
      (fix go (l : list node) : string :=
         match l with
         | [] => ""
         | c :: l' => text c +:+ go l'
         end) cs
  end.

(** *** CSS selectors

    The scrapers use comma-separated groups of compound selectors, each an
    optional tag name followed by class names: ["span.fl"],
    [".sense.has-sn"], [".vd, .important-blue-link"]. *)
Record compound : Type := Compound {
  sel_tag : string;              (* "" when no tag name is required *)
  sel_classes : list string
}.

(** [s.split(sep)] for a separator character. *)
Fixpoint split_on_go (sep : ascii) (cur : string) (s : string) : list string :=
  match s with
  | EmptyString => [cur]
  | String c r =>
      if ascii_dec c sep then cur :: split_on_go sep "" r
      else split_on_go sep (cur +:+ String c EmptyString) r
  end.

Definition split_on (sep : ascii) (s : string) : list string :=
  split_on_go sep "" s.

Definition parse_compound (s : string) : compound :=
  match split_on "." (Str.strip s) with
  | [] => Compound "" []
  | t :: cls => Compound t cls
  end.

Definition parse (selector : string) : list compound :=
  map parse_compound (split_on "," selector).

Definition matches_compound (c : compound) (n : node) : bool :=
  match n with
  | NavigableString _ => false
  | Tag nm _ _ =>
      (negb (Str.truthy (sel_tag c)) || String.eqb (sel_tag c) nm)
      && forallb (fun cl => Str.mem cl (classes n)) (sel_classes c)
  end.

Definition matches (selector : string) (n : node) : bool :=
  existsb (fun c => matches_compound c n) (parse selector).

(** [elem.select(selector)]: the matching descendants in document order. *)
Definition select (selector : string) (n : node) : list node :=
  filter (fun d => matches selector d = true) (descendants n).

(** [elem.select_one(selector)]: the first match, or [None]. *)
Definition select_one (selector : string) (n : node) : option node :=
  head (select selector n).

(** The tree after [x.decompose()] for every [x] in [n.select(selector)]:
    the matching descendants are removed with all they contain. *)
Fixpoint decompose_all (selector : string) (n : node) : node :=
  match n with
  | NavigableString s => NavigableString s
  | Tag nm attrs cs =>
      Tag nm attrs
        ((fix go (l : list node) : list node :=
            match l with
            | [] => []
            | c :: l' =>
                if matches selector c then go l'
                else decompose_all selector c :: go l'
            end) cs)
  end.

End Soup.

(** Shorthands to write pages: a tag with its classes, and a text node. *)
Definition el (nm cls : string) (cs : list node) : node :=
  Tag nm [("class", cls)] cs.
Definition txt (s : string) : node := NavigableString s.

(** ** Entries

    The dictionaries returned by the scrapers.  A key that is always written
    is a field, a key written under a condition is an optional field. *)
Inductive sense_label : Type :=
| SenseText (s : string)      (* Merriam-Webster: the label as printed *)
| SenseIndex (n : nat).       (* Longman: the position of the sense *)

Record GrammaticalPattern : Type := {
  pattern : string;
  pattern_examples : option (list string)
}.

Record Collocation : Type := {
  phrase : string;
  meaning : option string;
  collocation_examples : option (list string)
}.

Record DefinitionUnit : Type := {
  definition : string;
  examples : list string;
  pos : string;
  sense_number : option sense_label;
  sense_letter : option string;
  grammar : option string;
  translation : option string;
  grammatical_patterns : option (list GrammaticalPattern);
  collocations : option (list Collocation);
  related_word : option string;
  thesaurus_ref : option string
}.

Record CorpusExamples : Type := {
  title : string;
  corpus_lines : list string
}.

Record NormalizedEntry : Type := {
  source : string;
  word : string;
  url : string;
  definitions : list DefinitionUnit;
  word_family : option (list (string * list string));
  pronunciation : option string;
  frequency : option (list string);
  headword_pos : option string;          (* the key "pos" of a Longman entry *)
  corpus_examples : option (list CorpusExamples);
  verb_forms : option (list (string * string))
}.

Record ErrorEntry : Type := {
  error_source : string;
  error : string;
  trace : option string
}.

Inductive entry : Type :=
| Normalized (e : NormalizedEntry)
| Failed (e : ErrorEntry).

(** [{"definition": d, "examples": ex, "pos": p}] *)
Definition plain_unit (d : string) (ex : list string) (p : string) : DefinitionUnit :=
  {| definition := d; examples := ex; pos := p;
     sense_number := None; sense_letter := None; grammar := None;
     translation := None; grammatical_patterns := None; collocations := None;
     related_word := None; thesaurus_ref := None |}.

(** [{"source": s, "word": w, "url": u, "definitions": ds}] *)
Definition plain_entry (s w u : string) (ds : list DefinitionUnit) : NormalizedEntry :=
  {| source := s; word := w; url := u; definitions := ds;
     word_family := None; pronunciation := None; frequency := None;
     headword_pos := None; corpus_examples := None; verb_forms := None |}.

(** The keys of an error dictionary, in insertion order. *)
Definition error_keys (e : ErrorEntry) : list string :=
  ["source"; "error"] ++ match trace e with Some _ => ["trace"] | None => [] end.

(** The entries of a list that are present ([if x: ...] over optional values). *)
Definition present {A} (l : list (option A)) : list A := omap id l.

(** [s if s else absent], for a key written only when its text is truthy. *)
Definition nonempty (s : string) : option string :=
  if Str.truthy s then Some s else None.

Definition nonempty_list {A} (l : list A) : option (list A) :=
  match l with [] => None | _ => Some l end.

(** ** Exceptions

    An exception carries what the handlers read: the name of its type, its
    text, and the line of [get_definition] it was raised at. *)
Record exn : Type := {
  exn_type : string;
  exn_text : string;
  exn_line : nat
}.

Inductive outcome (A : Type) : Type :=
| Returns (a : A)
| Raises (e : exn).
Arguments Returns {A} a.
Arguments Raises {A} e.

(** [except Exception as e: return {"source": ..., "error": str(e),
    "trace": f"{type(e).__name__} at line {...tb_lineno}"}] *)
Definition on_exception (source_name : string) (e : exn) : entry :=
  Failed {| error_source := source_name;
            error := exn_text e;
            trace := Some (exn_type e +:+ " at line " +:+ pretty (exn_line e)) |}.

Definition guarded (source_name : string) (body : outcome entry) : entry :=
  match body with
  | Returns r => r
  | Raises e => on_exception source_name e
  end.

(** ** Transport

    [web u] is what [fetch_page] returns for the address [u] during the
    lookup: the parsed page, or [None] after any status other than 200 or
    any error of the request. *)
Definition transport : Type := string -> option node.

Definition fetch_page (web : transport) (u : string) : option node := web u.

Definition fetch_failure (source_name : string) : entry :=
  Failed {| error_source := source_name;
            error := "Failed to fetch page";
            trace := None |}.

(** ** The scrapers

    One constructor per scraper class; what [__init__] stores ([name],
    [base_url], [has_translation]) is a function of the constructor. *)
Inductive scraper : Type :=
| MerriamWebsterScraper
| CambridgeDictionaryScraper (language : string)
| LongmanDictionaryScraper.

Definition name (s : scraper) : string :=
  match s with
  | MerriamWebsterScraper => "Merriam-Webster"
  | CambridgeDictionaryScraper language =>
      if String.eqb language "chinese" then "Cambridge Dictionary (English-Chinese)"
      else if String.eqb language "japanese" then "Cambridge Dictionary (English-Japanese)"
      else if String.eqb language "korean" then "Cambridge Dictionary (English-Korean)"
      else if String.eqb language "italian" then "Cambridge Dictionary (English-Italian)"
      else "Cambridge Dictionary"
  | LongmanDictionaryScraper => "Longman Dictionary"
  end.

Definition base_url (s : scraper) : string :=
  match s with
  | MerriamWebsterScraper => "https://www.merriam-webster.com/dictionary/"
  | CambridgeDictionaryScraper language =>
      if String.eqb language "chinese"
      then "https://dictionary.cambridge.org/dictionary/english-chinese-simplified/"
      else if String.eqb language "japanese"
      then "https://dictionary.cambridge.org/dictionary/english-japanese/"
      else if String.eqb language "korean"
      then "https://dictionary.cambridge.org/dictionary/english-korean/"
      else if String.eqb language "italian"
      then "https://dictionary.cambridge.org/dictionary/english-italian/"
      else "https://dictionary.cambridge.org/dictionary/english/"
  | LongmanDictionaryScraper => "https://www.ldoceonline.com/dictionary/"
  end.

Definition has_translation (language : string) : bool :=
  if String.eqb language "chinese" then true
  else if String.eqb language "japanese" then true
  else if String.eqb language "korean" then true
  else if String.eqb language "italian" then true
  else false.

(** [f"{self.base_url}{word}"] *)
Definition page_url (s : scraper) (w : string) : string := base_url s +:+ w.

(** *** Merriam-Webster *)
Module MerriamWebster.

Definition self_name : string := name MerriamWebsterScraper.

(** The part of speech of a [.vg] block. *)
Definition block_word_type (pos_block : node) : string :=
  match Soup.select_one ".vd, .important-blue-link" pos_block with
  | None => ""
  | Some pos_elem =>
      let word_type :=
        Str.strip (Str.remove "verb" (clean_text (Soup.text pos_elem))) in
      if Str.truthy word_type then word_type
      else if String.eqb (Soup.name pos_elem) "a" then
        match Soup.attr "href" pos_elem with
        | Some href =>
            if Str.contains_char "/" href then Str.last_segment "/" href else ""
        | None => word_type
        end
      else word_type
  end.

(** The sub-senses of a numbered item: the lettered ones, or else the one
    [.sense-content], which may be missing. *)
Definition item_subsenses (sense_item : node) : list (option node) :=
  match Soup.select ".sense.has-sn" sense_item with
  | [] => [Soup.select_one ".sense-content" sense_item]
  | subsenses => map Some subsenses
  end.

Definition subsense_unit (word_type sense_num : string) (subsense : node)
  : option DefinitionUnit :=
  let letter_label :=
    match Soup.select_one ".letter" subsense with
    | Some letter_elem => clean_text (Soup.text letter_elem)
    | None => ""
    end in
  let definition_text :=
    match Soup.select_one ".dtText" subsense with
    | Some def_elem => Re.strip_colon (clean_text (Soup.text def_elem))
    | None => ""
    end in
  let examples :=
    map (fun example => Re.strip_tags (clean_text (Soup.text example)))
        (Soup.select ".ex-sent" subsense) in
  if Str.truthy definition_text then
    Some {| definition := definition_text; examples := examples; pos := word_type;
            sense_number := SenseText <$> nonempty sense_num;
            sense_letter := nonempty letter_label;
            grammar := None; translation := None;
            grammatical_patterns := None; collocations := None;
            related_word := None; thesaurus_ref := None |}
  else None.

Definition item_units (word_type : string) (sense_item : node) : list DefinitionUnit :=
  let sense_num :=
    match Soup.select_one ".vg-sseq-entry-item-label" sense_item with
    | Some sense_label => clean_text (Soup.text sense_label)
    | None => ""
    end in
  omap (subsense_unit word_type sense_num) (present (item_subsenses sense_item)).

Definition block_units (pos_block : node) : list DefinitionUnit :=
  let word_type := block_word_type pos_block in
  flat_map (item_units word_type) (Soup.select ".vg-sseq-entry-item" pos_block).

(** What the loop over the part-of-speech blocks appends to
    [result["definitions"]]. *)
Definition primary_units (parts_of_speech_blocks : list node) : list DefinitionUnit :=
  flat_map block_units parts_of_speech_blocks.

(** **** [_legacy_get_definition] *)
Definition legacy_definition (section : node) : string :=
  let definition_elem :=
    match Soup.select_one ".dtText" section with
    | Some e => Some e
    | None => Soup.select_one ".dt" section
    end in
  let definition :=
    match definition_elem with
    | None =>
        if Str.contains_char ":" (Soup.text section)
        then clean_text (Str.after_first ":" (Soup.text section))
        else clean_text (Soup.text section)
    | Some e => clean_text (Soup.text e)
    end in
  Re.strip_numbering definition.

(** The loop [for example in example_elems[:3]]. *)
Definition legacy_examples (example_elems : list node) : list string :=
  map (fun example => Re.strip_example_prefix (clean_text (Soup.text example)))
      (take 3 example_elems).

Definition legacy_section (word_type : string) (section : node) : option DefinitionUnit :=
  let definition := legacy_definition section in
  let examples := legacy_examples (Soup.select ".ex-sent, .t, .vis-example" section) in
  if Str.truthy definition && negb (Str.startswith "—" definition)
  then Some (plain_unit definition examples word_type)
  else None.

(** The loop [for i, section in enumerate(def_sections[:7])]. *)
Definition legacy_units (word_type : string) (def_sections : list node)
  : list DefinitionUnit :=
  omap (legacy_section word_type) (take 7 def_sections).

Definition legacy_sections (soup : node) : list node :=
  match Soup.select "div.sense" soup with
  | [] => Soup.select "span.dt" soup
  | def_sections => def_sections
  end.

Definition _legacy_get_definition (soup : node) (w u : string) : entry :=
  let word_type :=
    match Soup.select_one "span.fl" soup with
    | Some part_of_speech => clean_text (Soup.text part_of_speech)
    | None => ""
    end in
  Normalized (plain_entry self_name w u (legacy_units word_type (legacy_sections soup))).

(** The body of [get_definition], inside its [try]. *)
Definition body (web : transport) (w : string) : outcome entry :=
  let u := page_url MerriamWebsterScraper w in
  match fetch_page web u with
  | None => Returns (fetch_failure self_name)
  | Some soup =>
      match Soup.select ".vg" soup with
      | [] => Returns (_legacy_get_definition soup w u)
      | parts_of_speech_blocks =>
          match primary_units parts_of_speech_blocks with
          | [] => Returns (_legacy_get_definition soup w u)
          | ds => Returns (Normalized (plain_entry self_name w u ds))
          end
      end
  end.

End MerriamWebster.

(** *** Cambridge *)
Module Cambridge.

Definition example_text (example : node) : string :=
  match Soup.select_one ".eg.deg" example with
  | Some eng_example => clean_text (Soup.text eng_example)
  | None => clean_text (Soup.text example)
  end.

(** The loop [for example in example_elems[:3]]. *)
Definition block_examples (example_elems : list node) : list string :=
  map example_text (take 3 example_elems).

Definition block_translation (language : string) (block : node) : string :=
  if has_translation language then
    match Soup.select_one ".trans.dtrans" block with
    | Some trans_elem => clean_text (Soup.text trans_elem)
    | None => ""
    end
  else "".

Definition block_unit (language word_type : string) (block : node)
  : option DefinitionUnit :=
  match Soup.select_one ".def, .ddef_d" block with
  | Some definition_elem =>
      let definition := clean_text (Soup.text definition_elem) in
      let translation := block_translation language block in
      Some {| definition := definition;
              examples := block_examples (Soup.select ".examp, .dexamp" block);
              pos := word_type;
              sense_number := None; sense_letter := None; grammar := None;
              translation :=
                if has_translation language && Str.truthy translation
                then Some translation else None;
              grammatical_patterns := None; collocations := None;
              related_word := None; thesaurus_ref := None |}
  | None => None
  end.

(** The loop [for block in def_blocks[:5]]. *)
Definition blocks_units (language word_type : string) (def_blocks : list node)
  : list DefinitionUnit :=
  omap (block_unit language word_type) (take 5 def_blocks).

Definition entry_units (language : string) (entry : node) : list DefinitionUnit :=
  let word_type :=
    match Soup.select_one ".pos.dpos" entry with
    | Some pos_elem => clean_text (Soup.text pos_elem)
    | None => ""
    end in
  blocks_units language word_type (Soup.select ".def-block, .ddef_block" entry).

(** The loop [for entry in entries[:2]]. *)
Definition entries_units (language : string) (entries : list node)
  : list DefinitionUnit :=
  flat_map (entry_units language) (take 2 entries).

Definition body (language : string) (web : transport) (w : string) : outcome entry :=
  let self := CambridgeDictionaryScraper language in
  let u := page_url self w in
  match fetch_page web u with
  | None => Returns (fetch_failure (name self))
  | Some soup =>
      Returns (Normalized
        (plain_entry (name self) w u
           (entries_units language (Soup.select ".entry-body__el" soup))))
  end.

End Cambridge.

(** *** Longman

    While a sense is read the source edits the tree: speaker icons are
    decomposed, and [.defRef] and [.COLLOINEXA] wrappers are replaced by the
    string they hold.  The edits are modelled by the text read after them:
    removing the icons removes their text, and unwrapping a string leaves
    the text as it was. *)
Module Longman.

Definition self_name : string := name LongmanDictionaryScraper.

(** [elem.string] *)
Fixpoint string_of (n : node) : option string :=
  match n with
  | NavigableString s => Some s
  | Tag _ _ [c] => string_of c
  | Tag _ _ _ => None
  end.

Definition children (n : node) : list node :=
  match n with Tag _ _ cs => cs | NavigableString _ => [] end.

(** **** Word family: a scan of the children of each [.wordfams] block *)
Fixpoint has_key {V} (k : string) (d : list (string * V)) : bool :=
  match d with
  | [] => false
  | (k', _) :: r => String.eqb k' k || has_key k r
  end.

(** [d[k].append(x)] for a key that is present. *)
Fixpoint append_at (k x : string) (d : list (string * list string))
  : list (string * list string) :=
  match d with
  | [] => []
  | (k', xs) :: r =>
      if String.eqb k' k then (k', xs ++ [x]) :: r else (k', xs) :: append_at k x r
  end.

(** [d[k] = v] *)
Fixpoint assign (k v : string) (d : list (string * string)) : list (string * string) :=
  match d with
  | [] => [(k, v)]
  | (k', v') :: r =>
      if String.eqb k' k then (k', v) :: r else (k', v') :: assign k v r
  end.

Definition family_step (st : option string * list (string * list string)) (elem : node)
  : option string * list (string * list string) :=
  let '(current_pos, fam_items) := st in
  let nm := Soup.name elem in
  let cls := Soup.classes elem in
  if String.eqb nm "span" && Str.mem "pos" cls then
    let p := clean_text (Soup.text elem) in
    (Some p, if has_key p fam_items then fam_items else fam_items ++ [(p, [])])
  else if (String.eqb nm "span" && Str.mem "w" cls)
          || (String.eqb nm "a" && Str.mem "crossRef" cls) then
    match current_pos with
    | Some p =>
        if Str.truthy p && Str.truthy (Str.strip (Soup.text elem))
        then (current_pos, append_at p (clean_text (Soup.text elem)) fam_items)
        else st
    | None => st
    end
  else st.

Definition family_of (fam_items : list (string * list string)) (fam : node)
  : list (string * list string) :=
  snd (fold_left family_step (children fam) (None, fam_items)).

Definition word_family_of (soup : node) : option (list (string * list string)) :=
  nonempty_list (fold_left family_of (Soup.select ".wordfams" soup) []).

(** **** Senses

    The source removes the speaker icons of an example in place before it
    reads the text of the example.  Here the removal is applied where the
    text of an example is read; the other parts of a sense are read from the
    sense as it was fetched. *)
Definition example_text (example : node) : string :=
  clean_text (Soup.text (Soup.decompose_all ".speaker" example)).

Definition section_examples (section : node) : list string :=
  map example_text (Soup.select ".EXAMPLE" section).

Definition pattern_of (pattern_section : node) : option GrammaticalPattern :=
  match Soup.select_one ".PROPFORM" pattern_section with
  | Some pattern_form =>
      Some {| pattern := clean_text (Soup.text pattern_form);
              pattern_examples := nonempty_list (section_examples pattern_section) |}
  | None => None
  end.

Definition collocation_of (coll_section : node) : option Collocation :=
  match Soup.select_one ".COLLO" coll_section with
  | Some coll_phrase =>
      Some {| phrase := clean_text (Soup.text coll_phrase);
              meaning :=
                match Soup.select_one ".GLOSS" coll_section with
                | Some gloss_elem =>
                    nonempty (Re.strip_gloss (clean_text (Soup.text gloss_elem)))
                | None => None
                end;
              collocation_examples := nonempty_list (section_examples coll_section) |}
  | None => None
  end.

Definition sense_grammar (sense : node) : option string :=
  match Soup.select_one ".GRAM" sense with
  | Some gram_elem =>
      Some (clean_text (Str.remove "]" (Str.remove "[" (Soup.text gram_elem))))
  | None => None
  end.

Definition sense_related_word (sense : node) : option string :=
  match Soup.select_one ".RELATEDWD" sense with
  | Some related_elem =>
      nonempty (clean_text (Str.strip (Str.remove "→" (Soup.text related_elem))))
  | None => None
  end.

Definition sense_thesaurus_ref (sense : node) : option string :=
  match Soup.select_one ".Thesref" sense with
  | Some thes_elem =>
      match Soup.select_one ".REFHWD" thes_elem with
      | Some ref_elem => nonempty (clean_text (Soup.text ref_elem))
      | None => None
      end
  | None => None
  end.

(** One pass of the loop over the senses of an entry: the unit appended
    to [definitions], if any. *)
Definition sense_unit (entry_pos : string) (sense_idx : nat) (sense : node)
  : option DefinitionUnit :=
  match Soup.select_one ".DEF" sense with
  | Some definition_elem =>
      Some {| definition := clean_text (Soup.text definition_elem);
              examples := section_examples sense;
              pos := entry_pos;
              sense_number := Some (SenseIndex sense_idx);
              sense_letter := None;
              grammar := sense_grammar sense;
              translation := None;
              grammatical_patterns :=
                nonempty_list (omap pattern_of (Soup.select ".GramExa" sense));
              collocations :=
                nonempty_list (omap collocation_of (Soup.select ".ColloExa" sense));
              related_word := sense_related_word sense;
              thesaurus_ref := sense_thesaurus_ref sense |}
  | None => None
  end.

(** [enumerate(sense_blocks, 1)] *)
Definition senses_units (entry_pos : string) (sense_blocks : list node)
  : list DefinitionUnit :=
  present (imap (fun i sense => sense_unit entry_pos (S i) sense) sense_blocks).

Definition entry_pos_of (entry : node) : string :=
  match Soup.select_one ".POS" entry with
  | Some pos_elem => clean_text (Soup.text pos_elem)
  | None => ""
  end.

Definition entry_units (entry : node) : list DefinitionUnit :=
  senses_units (entry_pos_of entry) (Soup.select ".Sense" entry).

(** **** [headword_info], rebuilt for every [.dictentry] *)
Record headword : Type := {
  hw_pronunciation : option string;
  hw_frequency : option (list string);
  hw_pos : option string
}.

Definition headword_info (entry : node) : headword :=
  {| hw_pronunciation :=
       (fun pron_elem => clean_text (Soup.text pron_elem))
         <$> Soup.select_one ".PRON" entry;
     hw_frequency :=
       (fun freq_elems => map (fun f => clean_text (Soup.get "title" f)) freq_elems)
         <$> nonempty_list (Soup.select ".FREQ" entry);
     hw_pos :=
       (fun pos_elem => clean_text (Soup.text pos_elem))
         <$> Soup.select_one ".POS" entry |}.

(** **** Corpus examples *)

(** [for node in example.select(".NodeW"): if node.string:
    node.replace_with(f"[{node.string}]")] *)
Fixpoint bracket_highlights (n : node) : node :=
  match n with
  | NavigableString s => NavigableString s
  | Tag nm attrs cs =>
      Tag nm attrs
        ((fix go (l : list node) : list node :=
            match l with
            | [] => []
            | c :: l' =>
                (if Soup.matches ".NodeW" c then
                   match string_of c with
                   | Some s =>
                       if Str.truthy s then NavigableString ("[" +:+ s +:+ "]")
                       else bracket_highlights c
                   | None => bracket_highlights c
                   end
                 else bracket_highlights c) :: go l'
            end) cs)
  end.

Definition corpus_line (example : node) : string :=
  clean_text (Soup.text (bracket_highlights (Soup.decompose_all ".neutral" example))).

Definition corpus_group (corpus_section : node) : option CorpusExamples :=
  match Soup.select_one ".title" corpus_section with
  | Some title_elem =>
      match map corpus_line (Soup.select ".exa" corpus_section) with
      | [] => None
      | lines => Some {| title := clean_text (Soup.text title_elem);
                         corpus_lines := lines |}
      end
  | None => None
  end.

Definition corpus_examples_of (soup : node) : option (list CorpusExamples) :=
  nonempty_list (omap corpus_group (Soup.select ".exaGroup" soup)).

(** **** Verb table *)
Definition verb_row (verb_forms : list (string * string)) (row : node)
  : list (string * string) :=
  match Soup.select_one "th" row, Soup.select_one "td" row with
  | Some form_cell, Some value_cell =>
      let form_name := clean_text (Soup.text form_cell) in
      let form_value := clean_text (Soup.text value_cell) in
      if Str.truthy form_name && Str.truthy form_value
      then assign form_name form_value verb_forms
      else verb_forms
  | _, _ => verb_forms
  end.

Definition verb_forms_of (soup : node) : option (list (string * string)) :=
  match Soup.select_one "table.verbTable" soup with
  | Some verb_table => nonempty_list (fold_left verb_row (Soup.select "tr" verb_table) [])
  | None => None
  end.

(** **** [get_definition]

    [headword_info] is assigned only inside the loop over the [.dictentry]
    sections and read after it, at line 561: with no section the read
    raises [UnboundLocalError] (its text is that of Python 3.11 and later). *)
Definition unbound_headword_info : exn :=
  {| exn_type := "UnboundLocalError";
     exn_text := "cannot access local variable 'headword_info' where it is not associated with a value";
     exn_line := 561 |}.

Definition body (web : transport) (w : string) : outcome entry :=
  let u := page_url LongmanDictionaryScraper w in
  match fetch_page web u with
  | None => Returns (fetch_failure self_name)
  | Some soup =>
      let entry_sections := Soup.select ".dictentry" soup in
      let definitions := flat_map entry_units entry_sections in
      match last (map headword_info entry_sections) with
      | None => Raises unbound_headword_info
      | Some hw =>
          Returns (Normalized
            {| source := self_name; word := w; url := u;
               definitions := definitions;
               word_family := word_family_of soup;
               pronunciation := hw_pronunciation hw;
               frequency := hw_frequency hw;
               headword_pos := hw_pos hw;
               corpus_examples := corpus_examples_of soup;
               verb_forms := verb_forms_of soup |})
      end
  end.

End Longman.

(** The [try] block of [get_definition], by the class of the scraper. *)
Definition body (s : scraper) (web : transport) (w : string) : outcome entry :=
  match s with
  | MerriamWebsterScraper => MerriamWebster.body web w
  | CambridgeDictionaryScraper language => Cambridge.body language web w
  | LongmanDictionaryScraper => Longman.body web w
  end.

(** [scraper.get_definition(word)]: the body under its handler. *)
Definition get_definition (s : scraper) (web : transport) (w : string) : entry :=
  guarded (name s) (body s web w).

(** ** The combined scraper *)
Record CombinedResult : Type := {
  result_word : string;
  timestamp : string;
  sources : list entry
}.

(** [CombinedDictionaryScraper.initialize]: the scrapers it registers. *)
Definition initialize : list scraper :=
  [MerriamWebsterScraper; CambridgeDictionaryScraper "chinese"; LongmanDictionaryScraper].

(** [asyncio.gather] over the tasks: [results] are what the tasks return and
    [finished] lists the tasks in the order they complete.  Each result is
    stored in the slot of its task; the slots are returned once filled. *)
Definition store {A} (results : list A) (slots : list (option A)) (i : nat)
  : list (option A) :=
  match results !! i with
  | Some r => <[i := Some r]> slots
  | None => slots
  end.

Definition gather {A} (results : list A) (finished : list nat) : list A :=
  present (fold_left (store results) finished (replicate (length results) None)).

(** [if not self.scrapers: await self.initialize()] *)
Definition ensure_initialized (scrapers : list scraper) : list scraper :=
  match scrapers with [] => initialize | _ => scrapers end.

(** [get_word_data]: [scrapers] is [self.scrapers] on entry, [now] the value
    of [datetime.now().isoformat()].  Returns [self.scrapers] on exit and the
    combined document. *)
Definition get_word_data (scrapers : list scraper) (web : transport)
    (now : string) (finished : list nat) (w : string)
  : list scraper * CombinedResult :=
  let scrapers := ensure_initialized scrapers in
  let tasks := map (fun s => get_definition s web w) scrapers in
  (scrapers, {| result_word := w; timestamp := now; sources := gather tasks finished |}).

(** ** The lookup worker of the application *)
Record DictionaryWorker : Type := {
  worker_word : string;
  dictionary : option string;
  language : option string;
  search_all : bool
}.

Inductive payload : Type :=
| Combined (r : CombinedResult)
| Single (e : entry).

(** What the worker emits: [finished] with a result, or [error] with a text. *)
Inductive signal : Type :=
| finished (result : payload)
| error_signal (message : string).

Definition is_cambridge (s : scraper) : bool :=
  match s with CambridgeDictionaryScraper _ => true | _ => false end.
Definition is_merriam (s : scraper) : bool :=
  match s with MerriamWebsterScraper => true | _ => false end.
Definition is_longman (s : scraper) : bool :=
  match s with LongmanDictionaryScraper => true | _ => false end.

(** [self.language or "chinese"] *)
Definition language_or_default (l : option string) : string :=
  match l with
  | Some s => if Str.truthy s then s else "chinese"
  | None => "chinese"
  end.

(** [for s in scrapers: if isinstance(s, C): ...; break] *)
Definition first_instance (is_c : scraper -> bool) (scrapers : list scraper)
  : option scraper :=
  head (filter (fun s => is_c s = true) scrapers).

Definition run_async (self : DictionaryWorker) (web : transport) (now : string)
    (order : list nat) : signal :=
  let scrapers := initialize in
  if search_all self then
    let scrapers :=
      filter (fun s => is_cambridge s = false) scrapers
        ++ [CambridgeDictionaryScraper (language_or_default (language self))] in
    finished (Combined (snd (get_word_data scrapers web now order (worker_word self))))
  else
    match dictionary self with
    | None => error_signal "'NoneType' object has no attribute 'lower'"
    | Some d =>
        let key := Str.lower d in
        if Str.mem key ["merriam"; "merriam-webster"; "m"; "mw"] then
          match first_instance is_merriam scrapers with
          | Some s => finished (Single (get_definition s web (worker_word self)))
          | None => error_signal "Merriam-Webster scraper not found"
          end
        else if Str.mem key ["longman"; "l"] then
          match first_instance is_longman scrapers with
          | Some s => finished (Single (get_definition s web (worker_word self)))
          | None => error_signal "Longman Dictionary scraper not found"
          end
        else if Str.mem key ["cambridge"; "c"] then
          let cambridge_scraper :=
            CambridgeDictionaryScraper (language_or_default (language self)) in
          finished (Single (get_definition cambridge_scraper web (worker_word self)))
        else error_signal ("Dictionary " +:+ d +:+ " not found")
    end.

(** ** Notions used to state the properties *)

(** While [gather] waits, a slot is empty or holds the result of its own
    task. *)
Definition slots_ok {A} (results : list A) (slots : list (option A)) : Prop :=
  length slots = length results /\
  forall i r, slots !! i = Some (Some r) -> results !! i = Some r.

(** The languages for which [__init__] sets [has_translation]. *)
Definition bilingual_languages : list string :=
  ["chinese"; "japanese"; "korean"; "italian"].

(** A Longman sense with a [.DEF] node. *)
Definition has_def (sense : node) : Prop :=
  is_Some (Soup.select_one ".DEF" sense).

(** The identifiers the worker accepts for each dictionary. *)
Definition merriam_aliases : list string := ["merriam"; "merriam-webster"; "m"; "mw"].
Definition longman_aliases : list string := ["longman"; "l"].
Definition cambridge_aliases : list string := ["cambridge"; "c"].

(** The worker of a lookup in the dictionary [d] alone. *)
Definition single (w d : string) (lang : option string) : DictionaryWorker :=
  {| worker_word := w; dictionary := Some d; language := lang; search_all := false |}.

(** ** Sample pages *)

(** The root of a parsed page. *)
Definition page (cs : list node) : node := Tag "[document]" [] cs.

(** No page can be fetched. *)
Definition no_pages : transport := fun _ => None.

(** The Cambridge page is out of reach; the other two pages are [d]. *)
Definition cambridge_down (d : node) : transport :=
  fun u =>
    if String.eqb u (page_url (CambridgeDictionaryScraper "chinese") "combine")
    then None else Some d.

(** A Cambridge page with one entry, one definition block, and a definition
    node that holds no text. *)
Definition cambridge_blank_definition : node :=
  page [el "div" "entry-body__el"
          [el "div" "def-block ddef_block" [el "div" "def ddef_d" []]]].

(** A Longman page with one sense, whose [.DEF] node holds white space. *)
Definition longman_blank_definition : node :=
  page [el "div" "dictentry"
          [el "span" "Sense" [el "span" "DEF" [txt "  "]]]].

(** A Chinese-English page whose definition block has no translation node. *)
Definition cambridge_untranslated : node :=
  page [el "div" "entry-body__el"
          [el "span" "pos dpos" [txt "verb"];
           el "div" "def-block ddef_block"
             [el "div" "def ddef_d" [txt "to join together"]]]].

(** A Merriam-Webster page whose only part-of-speech block has no
    definition text; the legacy selectors match its sense. *)
Definition merriam_blocks_without_text : node :=
  page [el "div" "vg"
          [el "div" "vg-sseq-entry-item"
             [el "div" "sense has-sn" [txt "1 : to unite into one"]]];
        el "span" "fl" [txt "verb"]].

(** A Cambridge page with three entries; the first has six definition
    blocks, and its first block has four examples. *)
Definition cambridge_example (eng : string) : node :=
  el "div" "examp dexamp"
    [el "span" "eg deg" [txt eng]; el "span" "trans dtrans" [txt "..."]].

Definition cambridge_block (d : string) (exs : list node) : node :=
  el "div" "def-block ddef_block" (el "div" "def ddef_d" [txt d] :: exs).

Definition cambridge_crowded : node :=
  page [el "div" "entry-body__el"
          [cambridge_block "one" [cambridge_example "a"; cambridge_example "b";
                                  cambridge_example "c"; cambridge_example "d"];
           cambridge_block "two" []; cambridge_block "three" [];
           cambridge_block "four" []; cambridge_block "five" [];
           cambridge_block "six" []];
        el "div" "entry-body__el" [cambridge_block "seven" []];
        el "div" "entry-body__el" [cambridge_block "eight" []]].

(** A Longman entry with two senses: the first holds a cross-reference and
    a thesaurus reference but no definition. *)
Definition longman_cross_reference : node :=
  page [el "div" "dictentry"
          [el "span" "POS" [txt "verb"];
           el "span" "Sense"
             [el "span" "RELATEDWD" [txt "→ see also unite"];
              el "span" "Thesref" [el "span" "REFHWD" [txt "join"]]];
           el "span" "Sense"
             [el "span" "DEF" [txt "to join two things together"];
              el "span" "EXAMPLE"
                [el "span" "speaker" [txt "*"]; txt "Combine the eggs and flour."]]]].

(** A Longman page without any [.dictentry] section. *)
Definition longman_no_entry : node :=
  page [el "div" "content" [txt "Sorry, there are no results for this word."]].

(** A Merriam-Webster page with one part-of-speech block and two numbered
    senses, the first with two lettered sub-senses. *)
Definition merriam_two_senses : node :=
  page [el "div" "vg"
          [el "a" "important-blue-link" [txt "noun"];
           el "div" "vg-sseq-entry-item"
             [el "div" "vg-sseq-entry-item-label" [txt "1"];
              el "div" "sense has-sn"
                [el "span" "letter" [txt "a"];
                 el "span" "dtText" [txt ": a means of testing"]];
              el "div" "sense has-sn"
                [el "span" "letter" [txt "b"];
                 el "span" "dtText" [txt ": a trial"];
                 el "span" "ex-sent" [txt "a test of strength"]]];
           el "div" "vg-sseq-entry-item"
             [el "div" "vg-sseq-entry-item-label" [txt "2"];
              el "div" "sense-content"
                [el "span" "dtText" [txt ": a result"]]]]].

(** A Merriam-Webster page in the older layout: a numbered definition with
    an example, a cross-reference, and a section without a definition node. *)
Definition merriam_older_layout : node :=
  page [el "span" "fl" [txt "verb"];
        el "div" "sense"
          [el "span" "dtText" [txt "1 : to bring into close relationship"];
           el "span" "ex-sent" [txt "Example: combine them"]];
        el "div" "sense" [el "span" "dt" [txt "— see also unite"]];
        el "div" "sense" [txt "b : to merge"]].


From Stdlib Require Import Sorted.

(** ** The command line of the scraper

    [main] registers the scrapers, keeps those the [--dictionary] options
    name, and looks the word up in them. *)

(** [sub in s] for strings. *)
Fixpoint str_contains (sub s : string) : bool :=
  Str.startswith sub s ||
  match s with
  | EmptyString => false
  | String _ r => str_contains sub r
  end.

(** [CombinedDictionaryScraper.get_available_dictionaries] *)
Definition get_available_dictionaries (scrapers : list scraper) : list string :=
  map name scrapers.

(** [[s for s in available_dicts if d.lower() in s.lower()]] *)
Definition matching (available_dicts : list string) (d : string) : list string :=
  filter (fun s => str_contains (Str.lower d) (Str.lower s) = true) available_dicts.

(** The names gathered by the loop over the options. *)
Definition selected_scrapers (available_dicts dictionary : list string) : list string :=
  flat_map (matching available_dicts) dictionary.

(** [scraper.scrapers] after the options are applied. *)
Definition filter_scrapers (dictionary : list string) (scrapers : list scraper)
  : list scraper :=
  match dictionary with
  | [] => scrapers
  | _ =>
      match selected_scrapers (get_available_dictionaries scrapers) dictionary with
      | [] => scrapers
      | selected => filter (fun s => Str.mem (name s) selected = true) scrapers
      end
  end.

(** The document [main] prints or saves. *)
Definition main_result (w : string) (dictionary : list string) (web : transport)
    (now : string) (finished : list nat) : CombinedResult :=
  snd (get_word_data (filter_scrapers dictionary initialize) web now finished w).

(** ** Notions used to state further properties *)

(** Every character of [s] satisfies [p]. *)
Fixpoint str_forall (p : ascii -> bool) (s : string) : bool :=
  match s with
  | EmptyString => true
  | String c r => p c && str_forall p r
  end.

(** [s] holds white space only. *)
Definition blank (s : string) : bool := str_forall Str.isspace s.

(** [w] is not empty and holds no white space. *)
Definition is_word (w : string) : bool :=
  Str.truthy w && str_forall (fun c => negb (Str.isspace c)) w.


(** [entry.get("source")], for either kind of entry. *)
Definition entry_source (e : entry) : string :=
  match e with
  | Normalized n => source n
  | Failed f => error_source f
  end.

(** A Longman page with two entries; only the first has a pronunciation. *)
Definition longman_two_entries : node :=
  page [el "div" "dictentry"
          [el "span" "PRON" [txt "kəmˈbaɪn"];
           el "span" "POS" [txt "verb"];
           el "span" "Sense" [el "span" "DEF" [txt "to join"]]];
        el "div" "dictentry"
          [el "span" "POS" [txt "noun"];
           el "span" "Sense" [el "span" "DEF" [txt "a machine"]]]].


(** The value a row of the verb table gives to the form [form]: the row has
    both cells, neither is blank, and the first names [form]. *)
Definition row_value (form : string) (row : node) : option string :=
  match Soup.select_one "th" row, Soup.select_one "td" row with
  | Some form_cell, Some value_cell =>
      let form_name := clean_text (Soup.text form_cell) in
      let form_value := clean_text (Soup.text value_cell) in
      if Str.truthy form_name && Str.truthy form_value
         && String.eqb form_name form
      then Some form_value else None
  | _, _ => None
  end.

(** A Longman page with a word family, a sense with all its parts, corpus
    examples and a verb table that lists one form twice. *)
Definition longman_rich : node :=
  page [el "div" "wordfams"
          [el "span" "w" [txt "stray"];
           el "span" "pos" [txt " (noun) "]; el "span" "w" [txt "combination"];
           txt ", ";
           el "span" "pos" [txt "(verb)"]; el "a" "crossRef w" [txt "combine"];
           el "span" "w" [txt "recombine"]; el "span" "w" [txt "  "]];
        el "div" "dictentry"
          [el "span" "PRON" [txt "kəmˈbaɪn"];
           Tag "span" [("class", "FREQ"); ("title", "Top 3000 spoken words")] [txt "S3"];
           el "span" "POS" [txt " verb "];
           el "span" "Sense"
             [el "span" "GRAM" [txt "[intransitive, transitive]"];
              el "span" "DEF"
                [txt "if you "; el "a" "defRef" [txt "combine"]; txt " two things"];
              el "span" "EXAMPLE"
                [el "span" "speaker" [txt "X"]; txt "Combine ";
                 el "span" "COLLOINEXA" [txt "all"]; txt " the ingredients."];
              el "span" "GramExa"
                [el "span" "PROPFORM" [txt "combine something with something"];
                 el "span" "EXAMPLE" [txt "Diets work when combined with exercise."]];
              el "span" "ColloExa"
                [el "span" "COLLO" [txt "combine to do something"];
                 el "span" "GLOSS" [txt "(=work together)"];
                 el "span" "EXAMPLE" [txt "A number of factors combined."]];
              el "span" "RELATEDWD" [txt " → unite"];
              el "span" "Thesref" [el "span" "REFHWD" [txt "mix"]]]];
        el "div" "exaGroup"
          [el "span" "title" [txt "Examples from the Corpus"];
           el "span" "exa"
             [el "span" "neutral" [txt "• "]; txt "They ";
              el "span" "NodeW" [txt "combine"]; txt " well."]];
        Tag "table" [("class", "verbTable")]
          [Tag "tr" [] [Tag "th" [] [txt "Present"]; Tag "td" [] [txt "combine"]];
           Tag "tr" [] [Tag "th" [] [txt "Past"]; Tag "td" [] [txt "combined"]];
           Tag "tr" [] [Tag "th" [] [txt "Present"]; Tag "td" [] [txt "combines"]]]].

(** ** The language selector of the application *)

(** The items of [lang_selector]. *)
Definition lang_selector_items : list string :=
  ["Chinese"; "Japanese"; "Korean"; "Italian"; "English Only"].

(** The language handed to the worker for the item shown by the selector:
    [selected_lang = self.lang_selector.currentText().lower()], with
    ["english only"] replaced by ["english"]. *)
Definition selected_lang (current_text : string) : string :=
  let selected_lang := Str.lower current_text in
  if String.eqb selected_lang "english only" then "english" else selected_lang.

(** [on_tab_changed]: whether the change to the tab [index] starts
    [search_cambridge_only].  [cambridge] is [dictionary_data["cambridge"]]
    and [current_text] the item shown by the language selector; the message
    written to the status bar is not part of the model. *)
Definition on_tab_changed_searches (has_results : bool) (index : nat)
    (cambridge : option entry) (current_text : string) : bool :=
  if negb has_results then false
  else
    match cambridge with
    | Some data =>
        if Nat.eqb index 2 then
          let source_name := entry_source data in
          if str_contains "Chinese" source_name
             && negb (String.eqb current_text "Chinese") then true
          else if str_contains "Japanese" source_name
                  && negb (String.eqb current_text "Japanese") then true
          else if str_contains "Korean" source_name
                  && negb (String.eqb current_text "Korean") then true
          else if str_contains "Italian" source_name
                  && negb (String.eqb current_text "Italian") then true
          else if negb (str_contains "English" source_name)
                  && String.eqb current_text "English Only" then true
          else false
        else false
    | None => false
    end.

(** * Properties *)

(** ** The model on small inputs *)

Example clean_text_ex : clean_text "  to   join
 together " = "to join together".
Proof. reflexivity. Qed.

Example strip_numbering_ex : Re.strip_numbering "12) a thing" = "a thing".
Proof. reflexivity. Qed.

Example strip_tags_ex : Re.strip_tags "a <b>c</b> d < e" = "a c d < e".
Proof. reflexivity. Qed.

Example strip_gloss_ex : Re.strip_gloss "(= very good )" = "very good".
Proof. reflexivity. Qed.

Example select_ex :
  map Soup.text
    (Soup.select ".vd, .important-blue-link"
       (el "div" "" [el "a" "x important-blue-link" [txt "noun"];
                     el "span" "vdx" [txt "no"];
                     el "p" "vd" [el "b" "" [txt "verb"]; txt "!"]]))
  = ["noun"; "verb!"].
Proof. vm_compute. reflexivity. Qed.

Example select_tag_ex :
  map Soup.text
    (Soup.select "span.fl"
       (el "div" "" [el "div" "fl" [txt "a"]; el "span" "b fl" [txt "c"]]))
  = ["c"].
Proof. vm_compute. reflexivity. Qed.

Example decompose_ex :
  Soup.text (Soup.decompose_all ".speaker"
       (el "span" "EXAMPLE" [el "span" "speaker" [txt "x"]; txt "She sings."]))
  = "She sings.".
Proof. reflexivity. Qed.

Example merriam_two_senses_units :
  match get_definition MerriamWebsterScraper
          (fun _ => Some merriam_two_senses) "test" with
  | Normalized e =>
      map (fun u => (sense_number u, sense_letter u, definition u, examples u, pos u))
          (definitions e)
  | Failed _ => []
  end
  = [(Some (SenseText "1"), Some "a", "a means of testing", [], "noun");
     (Some (SenseText "1"), Some "b", "a trial", ["a test of strength"], "noun");
     (Some (SenseText "2"), None, "a result", [], "noun")].
Proof. vm_compute. reflexivity. Qed.

Example merriam_older_layout_units :
  get_definition MerriamWebsterScraper (fun _ => Some merriam_older_layout) "combine"
  = Normalized
      (plain_entry "Merriam-Webster" "combine"
         "https://www.merriam-webster.com/dictionary/combine"
         [plain_unit "to bring into close relationship" ["combine them"] "verb";
          plain_unit "to merge" [] "verb"]).
Proof. vm_compute. reflexivity. Qed.

(** ** [gather] returns the results in task order *)
Section Gather.
Context {A : Type}.
Implicit Types (results : list A) (slots : list (option A)) (order : list nat).

Lemma slots_ok_init results :
  slots_ok results (replicate (length results) None).
Proof.
  split; [apply length_replicate|].
  intros i r H. apply lookup_replicate in H as [? _]. discriminate.
Qed.

Lemma slots_ok_store results slots i :
  slots_ok results slots -> slots_ok results (store results slots i).
Proof.
  intros [Hlen Hval]. unfold store.
  destruct (results !! i) as [r|] eqn:Hi; [|by split].
  split; [by rewrite length_insert|].
  intros j r' Hj. destruct (decide (i = j)) as [->|Hne].
  - rewrite list_lookup_insert_eq in Hj.
    + by simplify_eq.
    + rewrite Hlen. by eapply lookup_lt_Some.
  - rewrite list_lookup_insert_ne in Hj by done. by apply Hval.
Qed.

(** A filled slot stays as it is. *)
Lemma store_keeps results slots i j r :
  slots_ok results slots ->
  slots !! j = Some (Some r) -> store results slots i !! j = Some (Some r).
Proof.
  intros [Hlen Hval] Hj. unfold store.
  destruct (results !! i) as [r'|] eqn:Hi; [|done].
  destruct (decide (i = j)) as [->|Hne].
  - rewrite list_lookup_insert_eq by (by eapply lookup_lt_Some).
    apply Hval in Hj. by simplify_eq.
  - by rewrite list_lookup_insert_ne.
Qed.

Lemma fold_store_keeps results order : forall slots j r,
  slots_ok results slots ->
  slots !! j = Some (Some r) ->
  fold_left (store results) order slots !! j = Some (Some r).
Proof.
  induction order as [|i order IH]; intros slots j r Hok Hj; [done|].
  simpl. apply IH; [by apply slots_ok_store | by apply store_keeps].
Qed.

Lemma fold_store_ok results order : forall slots,
  slots_ok results slots -> slots_ok results (fold_left (store results) order slots).
Proof.
  induction order as [|i order IH]; intros slots Hok; [done|].
  simpl. by apply IH, slots_ok_store.
Qed.

(** A task that finishes has its result in its slot at the end. *)
Lemma fold_store_fills results order : forall slots j r,
  slots_ok results slots ->
  j ∈ order -> results !! j = Some r ->
  fold_left (store results) order slots !! j = Some (Some r).
Proof.
  induction order as [|i order IH]; intros slots j r Hok Hin Hj.
  - by apply elem_of_nil in Hin.
  - simpl. destruct (decide (i = j)) as [->|Hne].
    + apply fold_store_keeps; [by apply slots_ok_store|].
      unfold store. rewrite Hj. apply list_lookup_insert_eq.
      destruct Hok as [-> _]. by eapply lookup_lt_Some.
    + apply IH; [by apply slots_ok_store| |done].
      apply elem_of_cons in Hin as [?|?]; [congruence|done].
Qed.

Lemma present_Some (l : list A) : present (map Some l) = l.
Proof. induction l as [|x l IH]; [done|]. simpl. unfold present in *. simpl. by rewrite IH. Qed.

(** When every task finishes, in whatever order, [gather] returns the
    results in the order of the tasks. *)
Lemma gather_all results order :
  (forall i, i < length results -> i ∈ order) ->
  gather results order = results.
Proof.
  intros Hall. unfold gather.
  pose proof (fold_store_ok results order _ (slots_ok_init results)) as [Hlen _].
  transitivity (present (Some <$> results)); [f_equal|apply present_Some].
  apply list_eq. intros j.
  destruct (results !! j) as [r|] eqn:Hj.
  - rewrite list_lookup_fmap, Hj. simpl.
    apply fold_store_fills; [apply slots_ok_init| |done].
    apply Hall. by eapply lookup_lt_Some.
  - rewrite list_lookup_fmap, Hj. simpl.
    apply lookup_ge_None. rewrite Hlen. by apply lookup_ge_None.
Qed.

Lemma gather_permutation results order :
  Permutation order (seq 0 (length results)) ->
  gather results order = results.
Proof.
  intros Hperm. apply gather_all. intros i Hi.
  rewrite Hperm. apply elem_of_seq. lia.
Qed.

End Gather.

(** ** The combined document *)

(** An entry depends on the remote documents only through the page of its
    own scraper. *)
Lemma get_definition_local s web web' w :
  fetch_page web (page_url s w) = fetch_page web' (page_url s w) ->
  get_definition s web w = get_definition s web' w.
Proof.
  intros H. unfold get_definition. f_equal.
  destruct s; simpl;
    unfold MerriamWebster.body, Cambridge.body, Longman.body; cbv zeta;
    by rewrite H.
Qed.

Lemma get_definition_fetch_failure s web w :
  fetch_page web (page_url s w) = None ->
  get_definition s web w = fetch_failure (name s).
Proof.
  intros H. unfold get_definition.
  destruct s; simpl;
    unfold MerriamWebster.body, Cambridge.body, Longman.body; cbv zeta;
    by rewrite H.
Qed.

Lemma get_word_data_gathered scrapers web now order w :
  Permutation order (seq 0 (length (ensure_initialized scrapers))) ->
  sources (snd (get_word_data scrapers web now order w))
  = map (fun s => get_definition s web w) (ensure_initialized scrapers).
Proof.
  intros Hperm. unfold get_word_data. simpl.
  apply gather_permutation. by rewrite length_map.
Qed.



(** C3. When the page of a scraper cannot be fetched, the entry of that
    scraper is the error entry with the text "Failed to fetch page", and it
    fills the slot of the scraper in the combined document; the slot of any
    scraper whose own page is fetched alike is the same as in a lookup where
    the failure does not occur. *)
Theorem fetch_failure_contained scrapers web now order w i s :
  Permutation order (seq 0 (length (ensure_initialized scrapers))) ->
  ensure_initialized scrapers !! i = Some s ->
  fetch_page web (page_url s w) = None ->
  let failed :=
    Failed {| error_source := name s; error := "Failed to fetch page"; trace := None |} in
  get_definition s web w = failed /\
  sources (snd (get_word_data scrapers web now order w)) !! i = Some failed /\
  forall web' j t,
    ensure_initialized scrapers !! j = Some t ->
    fetch_page web' (page_url t w) = fetch_page web (page_url t w) ->
    sources (snd (get_word_data scrapers web' now order w)) !! j
    = sources (snd (get_word_data scrapers web now order w)) !! j.
Proof.
  intros Hperm Hi Hfetch failed.
  assert (Hs : get_definition s web w = failed)
    by (by apply get_definition_fetch_failure).
  split; [done|]. split.
  - rewrite get_word_data_gathered by done.
    change (map ?f ?l) with (f <$> l).
    by rewrite list_lookup_fmap, Hi; simpl; rewrite Hs.
  - intros web' j t Hj Hsame.
    rewrite !get_word_data_gathered by done.
    change (map ?f ?l) with (f <$> l).
    rewrite !list_lookup_fmap, Hj. simpl. f_equal.
    by apply get_definition_local.
Qed.

Lemma fetch_failure_contained_witness :
  sources (snd (get_word_data initialize (cambridge_down (txt "page"))
                  "2025-04-07T13:24:00" [1; 2; 0] "combine")) !! 1
  = Some (Failed {| error_source := "Cambridge Dictionary (English-Chinese)";
                    error := "Failed to fetch page"; trace := None |}).
Proof.
  assert (Hperm : Permutation [1; 2; 0] (seq 0 (length (ensure_initialized initialize)))).
  { simpl. eapply perm_trans; [apply perm_skip, perm_swap|]. apply perm_swap. }
  exact (proj1 (proj2 (fetch_failure_contained initialize
           (cambridge_down (txt "page")) "2025-04-07T13:24:00" [1; 2; 0] "combine"
           1 (CambridgeDictionaryScraper "chinese") Hperm eq_refl eq_refl))).
Defined.

(** ** Definition texts *)

Lemma truthy_nonempty s : Str.truthy s = true -> s <> "".
Proof. by destruct s. Qed.

Lemma elem_of_flat_map {A B} (f : A -> list B) (l : list A) (y : B) :
  y ∈ flat_map f l <-> exists x, x ∈ l /\ y ∈ f x.
Proof.
  rewrite list_elem_of_In, in_flat_map.
  split; intros (x & Hx & Hy); exists x; split; by apply list_elem_of_In.
Qed.

Lemma elem_of_present {A} (l : list (option A)) (x : A) :
  x ∈ present l <-> Some x ∈ l.
Proof.
  unfold present. rewrite list_elem_of_omap. split.
  - by intros ([y|] & Hy & ?); simplify_eq/=.
  - intros H. by exists (Some x).
Qed.

(** Both strategies of the Merriam-Webster scraper test the definition text
    before they append a unit. *)
Lemma merriam_subsense_nonempty word_type sense_num subsense u :
  MerriamWebster.subsense_unit word_type sense_num subsense = Some u ->
  definition u <> "".
Proof.
  unfold MerriamWebster.subsense_unit.
  destruct (Str.truthy _) eqn:Ht; [|done].
  intros [= <-]. simpl. by apply truthy_nonempty.
Qed.

Lemma merriam_primary_nonempty blocks u :
  u ∈ MerriamWebster.primary_units blocks -> definition u <> "".
Proof.
  unfold MerriamWebster.primary_units, MerriamWebster.block_units,
    MerriamWebster.item_units.
  intros (block & _ & (item & _ & Hu)%elem_of_flat_map)%elem_of_flat_map.
  apply list_elem_of_omap in Hu as (subsense & _ & Hu).
  by eapply merriam_subsense_nonempty.
Qed.

Lemma merriam_legacy_nonempty word_type sections u :
  u ∈ MerriamWebster.legacy_units word_type sections -> definition u <> "".
Proof.
  unfold MerriamWebster.legacy_units, MerriamWebster.legacy_section.
  intros (section & _ & Hu)%list_elem_of_omap.
  destruct (Str.truthy _ && _) eqn:Ht; [|done].
  apply andb_prop in Ht as [Ht _].
  simplify_eq/=. by apply truthy_nonempty.
Qed.

Lemma merriam_definitions_nonempty web w e u :
  get_definition MerriamWebsterScraper web w = Normalized e ->
  u ∈ definitions e -> definition u <> "".
Proof.
  unfold get_definition, body, MerriamWebster.body,
    MerriamWebster._legacy_get_definition. cbv zeta.
  destruct (fetch_page _ _) as [soup|]; [|done].
  destruct (Soup.select ".vg" soup) as [|b bs] eqn:Hvg.
  - intros [= <-]. apply merriam_legacy_nonempty.
  - destruct (MerriamWebster.primary_units (b :: bs)) as [|d ds] eqn:Hp.
    + intros [= <-]. apply merriam_legacy_nonempty.
    + intros [= <-]. simpl. rewrite <- Hp. apply merriam_primary_nonempty.
Qed.

(** C1. On a Cambridge page whose definition node holds no text, the entry
    returned by [get_definition] has a unit with the empty definition: the
    scraper tests that the node is there, not that its text is non-empty. *)
Theorem cambridge_empty_definition_emitted :
  exists e u,
    get_definition (CambridgeDictionaryScraper "chinese")
      (fun _ => Some cambridge_blank_definition) "combine" = Normalized e /\
    definitions e = [u] /\ definition u = "".
Proof. eexists _, _. vm_compute. by repeat split. Qed.

(** The same holds of a Longman sense whose [.DEF] node is blank. *)
Example longman_empty_definition_emitted :
  exists e u,
    get_definition LongmanDictionaryScraper
      (fun _ => Some longman_blank_definition) "combine" = Normalized e /\
    definitions e = [u] /\ definition u = "".
Proof. eexists _, _. vm_compute. by repeat split. Qed.

(** ** Cambridge *)

Lemma has_translation_bilingual language :
  has_translation language = true <-> language ∈ bilingual_languages.
Proof.
  unfold has_translation, bilingual_languages.
  rewrite !elem_of_cons, elem_of_nil.
  destruct (String.eqb_spec language "chinese"); [by split; auto|].
  destruct (String.eqb_spec language "japanese"); [by split; auto|].
  destruct (String.eqb_spec language "korean"); [by split; auto|].
  destruct (String.eqb_spec language "italian"); [by split; auto 6|].
  split; [done|]. by intros [?|[?|[?|[?|[]]]]].
Qed.

Lemma cambridge_definitions language web w e :
  get_definition (CambridgeDictionaryScraper language) web w = Normalized e ->
  exists soup,
    fetch_page web (page_url (CambridgeDictionaryScraper language) w) = Some soup /\
    definitions e = Cambridge.entries_units language (Soup.select ".entry-body__el" soup).
Proof.
  unfold get_definition, body, Cambridge.body. cbv zeta.
  destruct (fetch_page _ _) as [soup|]; [|done].
  intros [= <-]. by exists soup.
Qed.

(** Every unit of a Cambridge entry is the unit of a definition block of one
    of the first two entries of the page. *)
Lemma cambridge_unit_block language entries u :
  u ∈ Cambridge.entries_units language entries ->
  exists word_type block, Cambridge.block_unit language word_type block = Some u.
Proof.
  unfold Cambridge.entries_units, Cambridge.entry_units, Cambridge.blocks_units.
  intros (entry & _ & Hu)%elem_of_flat_map.
  apply list_elem_of_omap in Hu as (block & _ & Hu). eauto.
Qed.

(** C4, as the code has it. A unit of a Cambridge entry carries a
    translation only when the language of the scraper is one of the
    bilingual ones, chinese, japanese, korean or italian (so it is not
    english); and then it carries one exactly when its definition block
    has a translation node whose cleaned text is not empty, that text being
    the translation. *)
Theorem cambridge_translation language web w e u :
  get_definition (CambridgeDictionaryScraper language) web w = Normalized e ->
  u ∈ definitions e ->
  (is_Some (translation u) ->
   language ∈ bilingual_languages /\ language <> "english") /\
  exists word_type block,
    Cambridge.block_unit language word_type block = Some u /\
    forall t, translation u = Some t <->
      language ∈ bilingual_languages /\
      exists trans_elem,
        Soup.select_one ".trans.dtrans" block = Some trans_elem /\
        clean_text (Soup.text trans_elem) = t /\ t <> "".
Proof.
  intros (soup & _ & ->)%cambridge_definitions
         (word_type & block & Hu)%cambridge_unit_block.
  assert (Hiff : forall t, translation u = Some t <->
      language ∈ bilingual_languages /\
      exists trans_elem,
        Soup.select_one ".trans.dtrans" block = Some trans_elem /\
        clean_text (Soup.text trans_elem) = t /\ t <> "").
  { intros t. rewrite <- has_translation_bilingual.
    unfold Cambridge.block_unit, Cambridge.block_translation in Hu.
    destruct (Soup.select_one ".def, .ddef_d" block); [|done].
    injection Hu as <-. simpl.
    destruct (has_translation language); simpl;
      [|split; [done | by intros [? _]]].
    destruct (Soup.select_one ".trans.dtrans" block) as [trans_elem|]; simpl.
    - destruct (Str.truthy _) eqn:Ht.
      + split.
        * intros [= <-]. split; [done|]. exists trans_elem.
          by split_and!; [..|apply truthy_nonempty].
        * by intros (_ & ? & [= <-] & <- & _).
      + split; [done|]. intros (_ & ? & [= <-] & <- & Hne).
        by destruct (clean_text _).
    - split; [done|]. by intros (_ & ? & ? & _). }
  split; [|by exists word_type, block].
  intros [t Ht]. apply Hiff in Ht as [Hlang _].
  split; [done|]. intros ->.
  unfold bilingual_languages in Hlang.
  rewrite !elem_of_cons, elem_of_nil in Hlang. intuition congruence.
Qed.

Lemma cambridge_translation_witness :
  exists e u,
    get_definition (CambridgeDictionaryScraper "chinese")
      (fun _ => Some cambridge_untranslated) "combine" = Normalized e /\
    u ∈ definitions e /\
    (is_Some (translation u) ->
     "chinese" ∈ bilingual_languages /\ "chinese" <> "english").
Proof.
  eexists _, _.
  split; [vm_compute; reflexivity|].
  split; [apply list_elem_of_here|].
  exact (proj1 (cambridge_translation "chinese"
                  (fun _ => Some cambridge_untranslated) "combine" _ _
                  eq_refl (list_elem_of_here _ _))).
Defined.

(** C4, as stated, fails: the scraper is configured for chinese, and the
    unit of a block without a translation node carries no translation. *)
Lemma cambridge_translation_not_iff :
  ~ (forall language web w e u,
       get_definition (CambridgeDictionaryScraper language) web w = Normalized e ->
       u ∈ definitions e ->
       (is_Some (translation u) <-> language <> "english")).
Proof.
  intros H.
  pose proof (H "chinese" (fun _ => Some cambridge_untranslated) "combine"
                _ _ eq_refl (list_elem_of_here _ _)) as [_ Hsome].
  destruct Hsome as [t Ht]; [done|]. vm_compute in Ht. discriminate.
Qed.

(** ** Loops over a capped list *)

Lemma length_omap_le {A B} (f : A -> option B) (l : list A) :
  length (omap f l) <= length l.
Proof. induction l as [|x l IH]; [done|]. csimpl. destruct (f x); simpl; lia. Qed.

Lemma length_flat_map_le {A B} (f : A -> list B) (k : nat) (l : list A) :
  (forall x, length (f x) <= k) -> length (flat_map f l) <= length l * k.
Proof.
  intros Hf. induction l as [|x l IH]; simpl; [done|].
  rewrite length_app. specialize (Hf x). lia.
Qed.

(** What a loop over [l[:n]] builds comes from the first [n] items of [l]. *)
Lemma elem_of_omap_take {A B} (f : A -> option B) (n : nat) (l : list A) (y : B) :
  y ∈ omap f (take n l) -> exists i x, i < n /\ l !! i = Some x /\ f x = Some y.
Proof.
  intros (x & (i & Hi & Hlt)%elem_of_take & Hy)%list_elem_of_omap. eauto.
Qed.

(** ** Merriam-Webster: the legacy strategy *)

(** C5. When the page has no part-of-speech block, or its blocks yield no
    unit, the entry returned by the Merriam-Webster scraper is the entry the
    legacy strategy builds from the same page, whatever that holds.  When
    the blocks yield units the entry holds those units and nothing of the
    legacy scan: the two are never mixed. *)
Theorem merriam_fallback web w soup :
  fetch_page web (page_url MerriamWebsterScraper w) = Some soup ->
  let u := page_url MerriamWebsterScraper w in
  let primary := MerriamWebster.primary_units (Soup.select ".vg" soup) in
  (Soup.select ".vg" soup = [] \/ primary = [] ->
   get_definition MerriamWebsterScraper web w
   = MerriamWebster._legacy_get_definition soup w u) /\
  (primary <> [] ->
   get_definition MerriamWebsterScraper web w
   = Normalized (plain_entry "Merriam-Webster" w u primary)).
Proof.
  intros Hfetch u primary. subst u primary.
  unfold get_definition, body, MerriamWebster.body. cbv zeta. rewrite Hfetch.
  destruct (Soup.select ".vg" soup) as [|b bs]; [by split|].
  destruct (MerriamWebster.primary_units (b :: bs)) as [|d ds]; split; try done.
  by intros [?|?].
Qed.

Lemma merriam_fallback_witness :
  get_definition MerriamWebsterScraper
    (fun _ => Some merriam_blocks_without_text) "combine"
  = Normalized
      (plain_entry "Merriam-Webster" "combine"
         "https://www.merriam-webster.com/dictionary/combine"
         [plain_unit "to unite into one" [] "verb"]).
Proof.
  exact (proj1 (merriam_fallback (fun _ => Some merriam_blocks_without_text)
                  "combine" merriam_blocks_without_text eq_refl)
           (or_intror eq_refl)).
Defined.

(** C9. The entry built by the legacy strategy has at most seven units; each
    comes from one of the first seven matched sections, and its examples are
    those of the first three example nodes of that section, so that it has
    at most three. *)
Theorem legacy_caps soup w u :
  exists e word_type,
    MerriamWebster._legacy_get_definition soup w u = Normalized e /\
    length (definitions e) <= 7 /\
    forall d, d ∈ definitions e ->
      exists i section,
        i < 7 /\
        MerriamWebster.legacy_sections soup !! i = Some section /\
        MerriamWebster.legacy_section word_type section = Some d /\
        examples d
        = map (fun example =>
                 Re.strip_example_prefix (clean_text (Soup.text example)))
              (take 3 (Soup.select ".ex-sent, .t, .vis-example" section)) /\
        length (examples d) <= 3.
Proof.
  unfold MerriamWebster._legacy_get_definition.
  eexists _, _. split; [reflexivity|]. simpl. split.
  - unfold MerriamWebster.legacy_units.
    etrans; [apply length_omap_le|]. rewrite length_take. lia.
  - intros d (i & section & Hi & Hsec & Hd)%elem_of_omap_take.
    exists i, section. split_and!; try done.
    + unfold MerriamWebster.legacy_section in Hd.
      destruct (_ && _); [|done]. by injection Hd as <-.
    + unfold MerriamWebster.legacy_section, MerriamWebster.legacy_examples in Hd.
      destruct (_ && _); [|done]. injection Hd as <-. simpl.
      rewrite length_map, length_take. lia.
Qed.

(** ** Cambridge: the caps *)

Lemma cambridge_block_unit_examples language word_type block u :
  Cambridge.block_unit language word_type block = Some u ->
  examples u
  = map Cambridge.example_text (take 3 (Soup.select ".examp, .dexamp" block)).
Proof.
  unfold Cambridge.block_unit.
  destruct (Soup.select_one ".def, .ddef_d" block); [|done].
  by intros [= <-].
Qed.

Lemma cambridge_entry_units_length language entry :
  length (Cambridge.entry_units language entry) <= 5.
Proof.
  unfold Cambridge.entry_units, Cambridge.blocks_units.
  etrans; [apply length_omap_le|]. rewrite length_take. lia.
Qed.

(** C7. A fetched Cambridge page always yields an entry, never an error.
    The entry has at most ten units: each is the unit of one of the first
    five definition blocks of one of the first two entries of the page.
    The examples of a unit are read from the first three example nodes of
    its block, so there are at most three, and each is the text of the
    English sub-example of its node when there is one, and the text of the
    whole node otherwise. *)
Theorem cambridge_caps language web w soup :
  fetch_page web (page_url (CambridgeDictionaryScraper language) w) = Some soup ->
  exists e,
    get_definition (CambridgeDictionaryScraper language) web w = Normalized e /\
    length (definitions e) <= 2 * 5 /\
    forall u, u ∈ definitions e ->
      exists i entry j block word_type,
        i < 2 /\ Soup.select ".entry-body__el" soup !! i = Some entry /\
        j < 5 /\ Soup.select ".def-block, .ddef_block" entry !! j = Some block /\
        Cambridge.block_unit language word_type block = Some u /\
        length (examples u) <= 3 /\
        examples u
        = map (fun example =>
                 match Soup.select_one ".eg.deg" example with
                 | Some eng_example => clean_text (Soup.text eng_example)
                 | None => clean_text (Soup.text example)
                 end)
              (take 3 (Soup.select ".examp, .dexamp" block)).
Proof.
  intros Hfetch.
  unfold get_definition, body, Cambridge.body. cbv zeta. rewrite Hfetch.
  eexists. split; [reflexivity|]. simpl. split.
  - unfold Cambridge.entries_units.
    etrans; [apply length_flat_map_le, cambridge_entry_units_length|].
    rewrite length_take. lia.
  - intros u (entry & (i & Hi & Hlt)%elem_of_take & Hu)%elem_of_flat_map.
    apply elem_of_omap_take in Hu as (j & block & Hj & Hblock & Hu).
    exists i, entry, j, block. eexists.
    split_and!; try done.
    + apply cambridge_block_unit_examples in Hu as ->.
      rewrite length_map, length_take. lia.
    + by apply cambridge_block_unit_examples in Hu as ->.
Qed.

Example cambridge_crowded_units :
  match get_definition (CambridgeDictionaryScraper "english")
          (fun _ => Some cambridge_crowded) "combine" with
  | Normalized e => map (fun u => (definition u, examples u)) (definitions e)
  | Failed _ => []
  end
  = [("one", ["a"; "b"; "c"]); ("two", []); ("three", []); ("four", []);
     ("five", []); ("seven", [])].
Proof. vm_compute. reflexivity. Qed.

Lemma cambridge_caps_witness :
  exists e,
    get_definition (CambridgeDictionaryScraper "english")
      (fun _ => Some cambridge_crowded) "combine" = Normalized e /\
    length (definitions e) <= 2 * 5.
Proof.
  destruct (cambridge_caps "english" (fun _ => Some cambridge_crowded) "combine"
              cambridge_crowded eq_refl) as (e & He & Hlen & _).
  exists e. by split.
Defined.

(** ** Longman: senses without a definition *)

Lemma sense_unit_without_def entry_pos sense_idx sense :
  Soup.select_one ".DEF" sense = None ->
  Longman.sense_unit entry_pos sense_idx sense = None.
Proof. unfold Longman.sense_unit. by intros ->. Qed.

Lemma sense_unit_with_def entry_pos sense_idx sense u :
  Longman.sense_unit entry_pos sense_idx sense = Some u ->
  exists definition_elem,
    Soup.select_one ".DEF" sense = Some definition_elem /\
    definition u = clean_text (Soup.text definition_elem) /\
    sense_number u = Some (SenseIndex sense_idx).
Proof.
  unfold Longman.sense_unit.
  destruct (Soup.select_one ".DEF" sense) as [d|]; [|done].
  intros [= <-]. by exists d.
Qed.

(** The units of an entry are as many as its senses with a definition node,
    however the senses are numbered. *)
Lemma senses_units_length_from entry_pos sense_blocks : forall number : nat -> nat,
  length (present (imap (fun i sense => Longman.sense_unit entry_pos (number i) sense)
                        sense_blocks))
  = length (filter has_def sense_blocks).
Proof.
  induction sense_blocks as [|sense l IH]; intros number; [done|].
  rewrite imap_cons. unfold present in *. csimpl.
  destruct (Soup.select_one ".DEF" sense) as [d|] eqn:Hd.
  - rewrite filter_cons_True by (unfold has_def; rewrite Hd; eauto).
    unfold Longman.sense_unit at 1. rewrite Hd. simpl. f_equal.
    apply (IH (number ∘ S)).
  - rewrite filter_cons_False by (unfold has_def; rewrite Hd; intros [? [=]]).
    rewrite sense_unit_without_def by done. apply (IH (number ∘ S)).
Qed.

Lemma senses_units_length entry_pos sense_blocks :
  length (Longman.senses_units entry_pos sense_blocks)
  = length (filter has_def sense_blocks).
Proof. apply (senses_units_length_from entry_pos sense_blocks S). Qed.

Lemma longman_units_length entries :
  length (flat_map Longman.entry_units entries)
  = length (filter has_def (flat_map (Soup.select ".Sense") entries)).
Proof.
  induction entries as [|entry l IH]; [done|]. simpl.
  rewrite filter_app, !length_app, IH. f_equal.
  apply senses_units_length.
Qed.

Lemma longman_definitions web w e :
  get_definition LongmanDictionaryScraper web w = Normalized e ->
  exists soup,
    fetch_page web (page_url LongmanDictionaryScraper w) = Some soup /\
    definitions e = flat_map Longman.entry_units (Soup.select ".dictentry" soup).
Proof.
  unfold get_definition, body, Longman.body. cbv zeta.
  destruct (fetch_page _ _) as [soup|]; [|done].
  destruct (last _); [|done].
  intros [= <-]. by exists soup.
Qed.

(** C6. A sense without a [.DEF] node yields no unit, whatever else it
    holds.  In the entry built from a fetched Longman page the units are as
    many as the senses that have a [.DEF] node, and each unit is that of
    such a sense: its definition is the cleaned text of the node and its
    number the position of the sense in its entry. *)
Theorem longman_sense_without_definition web w soup e :
  fetch_page web (page_url LongmanDictionaryScraper w) = Some soup ->
  get_definition LongmanDictionaryScraper web w = Normalized e ->
  (forall entry_pos sense_idx sense,
     Soup.select_one ".DEF" sense = None ->
     Longman.sense_unit entry_pos sense_idx sense = None) /\
  length (definitions e)
  = length (filter has_def
              (flat_map (Soup.select ".Sense") (Soup.select ".dictentry" soup))) /\
  forall u, u ∈ definitions e ->
    exists entry i sense definition_elem,
      entry ∈ Soup.select ".dictentry" soup /\
      Soup.select ".Sense" entry !! i = Some sense /\
      Soup.select_one ".DEF" sense = Some definition_elem /\
      definition u = clean_text (Soup.text definition_elem) /\
      sense_number u = Some (SenseIndex (S i)).
Proof.
  intros Hfetch (soup' & Hfetch' & ->)%longman_definitions.
  assert (soup' = soup) as -> by congruence.
  split; [apply sense_unit_without_def|].
  split; [apply longman_units_length|].
  intros u (entry & Hentry & Hu)%elem_of_flat_map.
  unfold Longman.entry_units, Longman.senses_units in Hu.
  apply elem_of_present, elem_of_lookup_imap in Hu as (i & sense & Hu & Hi).
  symmetry in Hu. apply sense_unit_with_def in Hu as (d & ? & ? & ?).
  by exists entry, i, sense, d.
Qed.

Example longman_cross_reference_units :
  match get_definition LongmanDictionaryScraper
          (fun _ => Some longman_cross_reference) "combine" with
  | Normalized e =>
      map (fun u => (sense_number u, definition u, examples u)) (definitions e)
  | Failed _ => []
  end
  = [(Some (SenseIndex 2), "to join two things together",
      ["Combine the eggs and flour."])].
Proof. vm_compute. reflexivity. Qed.

Lemma longman_sense_without_definition_witness :
  exists e,
    get_definition LongmanDictionaryScraper
      (fun _ => Some longman_cross_reference) "combine" = Normalized e /\
    length (definitions e) = 1.
Proof.
  eexists. split; [vm_compute; reflexivity|].
  exact (proj1 (proj2 (longman_sense_without_definition
           (fun _ => Some longman_cross_reference) "combine"
           longman_cross_reference _ eq_refl eq_refl))).
Defined.

(** ** Error entries *)

Lemma body_fetch_failure s web w :
  fetch_page web (page_url s w) = None ->
  body s web w = Returns (fetch_failure (name s)).
Proof.
  intros H.
  destruct s; simpl;
    unfold MerriamWebster.body, Cambridge.body, Longman.body; cbv zeta;
    by rewrite H.
Qed.

(** Past the fetch, a body returns an entry with definitions or raises. *)
Lemma body_fetched s web w soup :
  fetch_page web (page_url s w) = Some soup ->
  (exists e, body s web w = Returns (Normalized e)) \/
  (exists exc, body s web w = Raises exc).
Proof.
  intros H.
  destruct s; simpl;
    unfold MerriamWebster.body, MerriamWebster._legacy_get_definition,
      Cambridge.body, Longman.body; cbv zeta; rewrite H.
  - destruct (Soup.select ".vg" soup); [by eauto|].
    destruct (MerriamWebster.primary_units _); by eauto.
  - by eauto.
  - destruct (last _); by eauto.
Qed.

(** An error entry returned by a scraper is the failure to fetch, with two
    keys, or comes from an exception raised past the fetch, with three. *)
Lemma scraper_error_entry s web w err :
  get_definition s web w = Failed err ->
  error_source err = name s /\
  ((fetch_page web (page_url s w) = None /\
    error err = "Failed to fetch page" /\
    error_keys err = ["source"; "error"]) \/
   (exists soup exc,
      fetch_page web (page_url s w) = Some soup /\
      body s web w = Raises exc /\
      error err = exn_text exc /\
      trace err = Some (exn_type exc +:+ " at line " +:+ pretty (exn_line exc)) /\
      error_keys err = ["source"; "error"; "trace"])).
Proof.
  unfold get_definition. intros Herr.
  destruct (fetch_page web (page_url s w)) as [soup|] eqn:Hfetch.
  - destruct (body_fetched s web w soup Hfetch) as [[e He]|[exc Hexc]].
    + rewrite He in Herr. discriminate.
    + rewrite Hexc in Herr. injection Herr as <-.
      split; [done|]. right. by exists soup, exc.
  - rewrite (body_fetch_failure s web w Hfetch) in Herr.
    injection Herr as <-. split; [done|]. by left.
Qed.

Example longman_no_entry_error :
  get_definition LongmanDictionaryScraper (fun _ => Some longman_no_entry) "combine"
  = Failed
      {| error_source := "Longman Dictionary";
         error := "cannot access local variable 'headword_info' where it is not associated with a value";
         trace := Some "UnboundLocalError at line 561" |}.
Proof. vm_compute. reflexivity. Qed.

(** ** Selecting one dictionary *)

Lemma mem_spec x l : Str.mem x l = true <-> x ∈ l.
Proof.
  unfold Str.mem. induction l as [|y l IH]; simpl.
  - split; [done | by intros ?%elem_of_nil].
  - by rewrite orb_true_iff, String.eqb_eq, IH, elem_of_cons.
Qed.

(** C8, as the code has it. The worker compares the lower-cased identifier
    with the aliases of each dictionary and emits the entry of the selected
    scraper; the alias "mw", in any case, selects the Merriam-Webster scraper.
    For an identifier that is no alias the worker raises nothing and emits
    no entry: it emits the [error] signal with the text
    "Dictionary <identifier> not found". *)
Theorem run_async_selection w lang web now order :
  (forall d, Str.lower d ∈ merriam_aliases ->
     run_async (single w d lang) web now order
     = finished (Single (get_definition MerriamWebsterScraper web w))) /\
  (forall d, Str.lower d ∈ longman_aliases ->
     run_async (single w d lang) web now order
     = finished (Single (get_definition LongmanDictionaryScraper web w))) /\
  (forall d, Str.lower d ∈ cambridge_aliases ->
     run_async (single w d lang) web now order
     = finished (Single (get_definition
                           (CambridgeDictionaryScraper (language_or_default lang)) web w))) /\
  (forall d, Str.lower d ∉ merriam_aliases ++ longman_aliases ++ cambridge_aliases ->
     run_async (single w d lang) web now order
     = error_signal ("Dictionary " +:+ d +:+ " not found")) /\
  run_async (single w "mw" lang) web now order
  = finished (Single (get_definition MerriamWebsterScraper web w)) /\
  run_async (single w "MW" lang) web now order
  = finished (Single (get_definition MerriamWebsterScraper web w)) /\
  run_async (single w "zz" lang) web now order
  = error_signal "Dictionary zz not found".
Proof.
  assert (Hcases : forall d,
    run_async (single w d lang) web now order
    = if Str.mem (Str.lower d) merriam_aliases
      then finished (Single (get_definition MerriamWebsterScraper web w))
      else if Str.mem (Str.lower d) longman_aliases
      then finished (Single (get_definition LongmanDictionaryScraper web w))
      else if Str.mem (Str.lower d) cambridge_aliases
      then finished (Single (get_definition
             (CambridgeDictionaryScraper (language_or_default lang)) web w))
      else error_signal ("Dictionary " +:+ d +:+ " not found")).
  { intros d. unfold run_async, single. simpl.
    fold merriam_aliases longman_aliases cambridge_aliases.
    by repeat destruct (Str.mem _ _). }
  split_and!; try (by rewrite Hcases).
  - intros d Hd%mem_spec. by rewrite Hcases, Hd.
  - intros d Hd. rewrite Hcases, (proj2 (mem_spec _ _) Hd).
    destruct (Str.mem (Str.lower d) merriam_aliases) eqn:Hm; [|done].
    apply list_elem_of_In in Hd. simpl in Hd.
    by destruct Hd as [Hd|[Hd|[]]]; rewrite <- Hd in Hm.
  - intros d Hd. rewrite Hcases, (proj2 (mem_spec _ _) Hd).
    apply list_elem_of_In in Hd. simpl in Hd.
    destruct (Str.mem (Str.lower d) merriam_aliases) eqn:Hm;
      [by destruct Hd as [Hd|[Hd|[]]]; rewrite <- Hd in Hm|].
    destruct (Str.mem (Str.lower d) longman_aliases) eqn:Hl; [|done].
    by destruct Hd as [Hd|[Hd|[]]]; rewrite <- Hd in Hl.
  - intros d Hd. rewrite Hcases.
    rewrite !elem_of_app, <- !mem_spec in Hd.
    by repeat (destruct (Str.mem _ _); [tauto|]).
Qed.

(** C8, as stated, fails: for the identifier "zz" the worker emits no entry
    at all, hence no error entry; what it emits is the bare text. *)
Lemma unknown_dictionary_no_error_entry :
  run_async (single "combine" "zz" None) no_pages "2025-04-07T13:24:00" []
  = error_signal "Dictionary zz not found" /\
  ~ (exists err,
       run_async (single "combine" "zz" None) no_pages "2025-04-07T13:24:00" []
       = finished (Single (Failed err))).
Proof. split; [reflexivity|]. by intros [err [=]]. Qed.

(** ** Error entries and the worker *)

(** The signal of a look-up in one dictionary, by the aliases the
    lower-cased identifier belongs to. *)
Lemma run_async_single w d lang web now order :
  run_async (single w d lang) web now order
  = if Str.mem (Str.lower d) merriam_aliases
    then finished (Single (get_definition MerriamWebsterScraper web w))
    else if Str.mem (Str.lower d) longman_aliases
    then finished (Single (get_definition LongmanDictionaryScraper web w))
    else if Str.mem (Str.lower d) cambridge_aliases
    then finished (Single (get_definition
           (CambridgeDictionaryScraper (language_or_default lang)) web w))
    else error_signal ("Dictionary " +:+ d +:+ " not found").
Proof.
  unfold run_async, single. simpl.
  fold merriam_aliases longman_aliases cambridge_aliases.
  by repeat destruct (Str.mem _ _).
Qed.

(** C10, as the code has it. An error entry returned by a scraper is of one
    of two kinds.  When the page could not be fetched it has the two keys
    [source] and [error], the latter being "Failed to fetch page".
    Otherwise the page was fetched and the body of the scraper raised an
    exception: the entry has the third key [trace], made of the name of the
    type of the exception and the line it was raised at, and its [error] is
    the text of the exception.  These are the only error entries there are:
    an entry the worker emits for one dictionary is the entry of a scraper,
    and for an identifier that is no alias the worker emits no entry but the
    [error] signal with the text "Dictionary <identifier> not found". *)
Theorem error_entry_shapes s web w :
  (forall err, get_definition s web w = Failed err ->
     error_source err = name s /\
     ((fetch_page web (page_url s w) = None /\
       error err = "Failed to fetch page" /\
       error_keys err = ["source"; "error"]) \/
      (exists soup exc,
         fetch_page web (page_url s w) = Some soup /\
         body s web w = Raises exc /\
         error err = exn_text exc /\
         trace err = Some (exn_type exc +:+ " at line " +:+ pretty (exn_line exc)) /\
         error_keys err = ["source"; "error"; "trace"]))) /\
  (forall d lang now order e,
     run_async (single w d lang) web now order = finished (Single e) ->
     exists s', e = get_definition s' web w) /\
  (forall d lang now order,
     Str.lower d ∉ merriam_aliases ++ longman_aliases ++ cambridge_aliases ->
     run_async (single w d lang) web now order
     = error_signal ("Dictionary " +:+ d +:+ " not found")).
Proof.
  split_and!.
  - apply scraper_error_entry.
  - intros d lang now order e. rewrite run_async_single.
    repeat (destruct (Str.mem _ _); [intros [= <-]; by eexists|]).
    done.
  - intros d lang now order Hd. rewrite run_async_single.
    rewrite !elem_of_app, <- !mem_spec in Hd.
    by repeat (destruct (Str.mem _ _); [tauto|]).
Qed.

Lemma error_entry_shapes_witness :
  exists err,
    get_definition LongmanDictionaryScraper
      (fun _ => Some longman_no_entry) "combine" = Failed err /\
    error_source err = "Longman Dictionary" /\
    trace err = Some "UnboundLocalError at line 561" /\
    error_keys err = ["source"; "error"; "trace"].
Proof.
  eexists. split; [vm_compute; reflexivity|].
  destruct (proj1 (error_entry_shapes LongmanDictionaryScraper
                     (fun _ => Some longman_no_entry) "combine") _ eq_refl)
    as (Hsource & [(Hnone & _) | (soup & exc & _ & Hbody & _ & Htrace & Hkeys)]).
  - vm_compute in Hnone. discriminate.
  - split; [exact Hsource|]. split; [|exact Hkeys].
    etransitivity; [exact Htrace|].
    vm_compute in Hbody. injection Hbody as <-.
    vm_compute. reflexivity.
Defined.

(** C10, as stated, fails: a selection failure has no error entry with the
    two keys [source] and [error].  For the identifier "oxford" the worker
    emits the text on its [error] signal and no entry. *)
Lemma selection_failure_no_two_key_entry :
  run_async (single "combine" "oxford" (Some "chinese")) no_pages
    "2025-04-07T13:24:00" []
  = error_signal "Dictionary oxford not found" /\
  ~ (exists err,
       run_async (single "combine" "oxford" (Some "chinese")) no_pages
         "2025-04-07T13:24:00" []
       = finished (Single (Failed err)) /\
       error_keys err = ["source"; "error"]).
Proof. split; [reflexivity|]. by intros (err & [=] & _). Qed.

(** * Further properties *)

(** ** Strings *)

Lemma app_cons c s t : String c s +:+ t = String c (s +:+ t).
Proof. reflexivity. Qed.

Lemma app_nil_r s : s +:+ "" = s.
Proof. induction s as [|c s IH]; [done|]. by rewrite app_cons, IH. Qed.

Lemma app_assoc s t u : (s +:+ t) +:+ u = s +:+ (t +:+ u).
Proof. induction s as [|c s IH]; [done|]. by rewrite !app_cons, IH. Qed.

Lemma rev_app_spec s : forall acc, String.rev_app s acc = String.rev s +:+ acc.
Proof.
  unfold String.rev. induction s as [|c s IH]; intros acc; [done|]. simpl.
  rewrite (IH (String c acc)), (IH (String c "")), app_assoc. done.
Qed.

Lemma rev_cons c s : String.rev (String c s) = String.rev s +:+ String c "".
Proof. unfold String.rev at 1. simpl. apply rev_app_spec. Qed.

Lemma rev_app_distr s t : String.rev (s +:+ t) = String.rev t +:+ String.rev s.
Proof.
  induction s as [|c s IH]; [by rewrite app_nil_r|].
  by rewrite app_cons, !rev_cons, IH, app_assoc.
Qed.

Lemma rev_involutive s : String.rev (String.rev s) = s.
Proof.
  induction s as [|c s IH]; [done|].
  by rewrite rev_cons, rev_app_distr, IH.
Qed.

Lemma str_forall_app p s t :
  str_forall p (s +:+ t) = str_forall p s && str_forall p t.
Proof.
  induction s as [|c s IH]; [done|].
  rewrite app_cons. simpl. rewrite IH. by destruct (p c).
Qed.

Lemma str_forall_rev p s : str_forall p (String.rev s) = str_forall p s.
Proof.
  induction s as [|c s IH]; [done|].
  rewrite rev_cons, str_forall_app, IH. simpl.
  by destruct (p c), (str_forall p s).
Qed.

(** [drop_while] removes a run of characters that satisfy the test. *)
Lemma drop_while_split p s :
  exists a, str_forall p a = true /\ s = a +:+ Str.drop_while p s.
Proof.
  induction s as [|c s (a & Ha & Hs)]; [by exists ""|]. simpl.
  destruct (p c) eqn:Hc; [|by exists ""].
  exists (String c a). rewrite app_cons, <- Hs. simpl. by rewrite Hc, Ha.
Qed.

Lemma rstrip_split s : exists t, blank t = true /\ s = Str.rstrip s +:+ t.
Proof.
  unfold Str.rstrip.
  destruct (drop_while_split Str.isspace (String.rev s)) as (a & Ha & Hs).
  exists (String.rev a). split; [unfold blank; by rewrite str_forall_rev|].
  rewrite <- rev_app_distr, <- Hs. by rewrite rev_involutive.
Qed.

(** ** [clean_text] *)

Lemma split_go_blank t : forall cur,
  blank t = true ->
  Str.split_go cur t = if Str.truthy cur then [cur] else [].
Proof.
  induction t as [|c t IH]; intros cur Ht; [done|]. simpl in *.
  apply andb_prop in Ht as [-> Ht]. rewrite (IH "" Ht). simpl.
  by destruct (Str.truthy cur).
Qed.

Lemma split_go_app_blank a t : forall cur,
  blank t = true -> Str.split_go cur (a +:+ t) = Str.split_go cur a.
Proof.
  induction a as [|c a IH]; intros cur Ht.
  - by apply split_go_blank.
  - rewrite app_cons. simpl. by rewrite !IH.
Qed.

Lemma split_lstrip s : Str.split (Str.lstrip s) = Str.split s.
Proof.
  unfold Str.split, Str.lstrip.
  induction s as [|c s IH]; [done|]. simpl.
  by destruct (Str.isspace c) eqn:Hc; simpl; rewrite ?Hc.
Qed.

(** The [strip] of [clean_text] changes nothing: [split] passes over the
    white space at both ends. *)
Lemma split_strip s : Str.split (Str.strip s) = Str.split s.
Proof.
  unfold Str.strip. rewrite <- (split_lstrip s).
  destruct (rstrip_split (Str.lstrip s)) as (t & Ht & Hs).
  rewrite Hs at 2. unfold Str.split. by rewrite split_go_app_blank.
Qed.

Lemma split_go_word w : forall cur s,
  str_forall (fun c => negb (Str.isspace c)) w = true ->
  Str.split_go cur (w +:+ s) = Str.split_go (cur +:+ w) s.
Proof.
  induction w as [|c w IH]; intros cur s Hw; [by rewrite app_nil_r|].
  simpl in Hw. apply andb_prop in Hw as [Hc Hw].
  rewrite app_cons. simpl. apply negb_true_iff in Hc as ->.
  rewrite IH by done. by rewrite app_assoc.
Qed.

Lemma split_go_words s : forall cur,
  str_forall (fun c => negb (Str.isspace c)) cur = true ->
  Forall (fun w => is_word w = true) (Str.split_go cur s).
Proof.
  unfold is_word.
  induction s as [|c s IH]; intros cur Hcur; simpl.
  - destruct (Str.truthy cur) eqn:Ht; [|done].
    constructor; [by rewrite Ht, Hcur | done].
  - destruct (Str.isspace c) eqn:Hc.
    + destruct (Str.truthy cur) eqn:Ht; [|by apply IH].
      constructor; [by rewrite Ht, Hcur | by apply IH].
    + apply IH. rewrite str_forall_app, Hcur. simpl. by rewrite Hc.
Qed.

Lemma split_go_space cur r :
  Str.split_go cur (String " " r)
  = if Str.truthy cur then cur :: Str.split_go "" r else Str.split_go "" r.
Proof. reflexivity. Qed.

Lemma split_join ws :
  Forall (fun w => is_word w = true) ws -> Str.split (Str.join " " ws) = ws.
Proof.
  unfold Str.split, is_word.
  induction 1 as [|w ws [Ht Hw]%andb_prop Hws IH]; [done|].
  destruct ws as [|w' ws].
  - simpl. rewrite <- (app_nil_r w) at 1.
    rewrite split_go_word by done. change ("" +:+ w) with w.
    simpl. by rewrite Ht.
  - change (Str.join " " (w :: w' :: ws))
      with (w +:+ " " +:+ Str.join " " (w' :: ws)).
    rewrite split_go_word by done. change ("" +:+ w) with w.
    change (" " +:+ Str.join " " (w' :: ws))
      with (String " " (Str.join " " (w' :: ws))).
    by rewrite split_go_space, Ht, IH.
Qed.



Lemma clean_text_join s : clean_text s = Str.join " " (Str.split s).
Proof. unfold clean_text. by rewrite split_strip. Qed.

Lemma split_words s : Forall (fun w => is_word w = true) (Str.split s).
Proof. by apply split_go_words. Qed.










(** X2. Cleaning a cleaned text changes nothing. *)
Theorem clean_text_idempotent s : clean_text (clean_text s) = clean_text s.
Proof.
  rewrite (clean_text_join (clean_text s)), (clean_text_join s).
  by rewrite split_join by apply split_words.
Qed.



(** ** Tags in the examples of Merriam-Webster *)

Lemma contains_char_cons c d r :
  Str.contains_char c (String d r)
  = if ascii_dec c d then true else Str.contains_char c r.
Proof. reflexivity. Qed.

Lemma contains_char_app c s t :
  Str.contains_char c (s +:+ t) = Str.contains_char c s || Str.contains_char c t.
Proof.
  induction s as [|d s IH]; [done|].
  rewrite app_cons. simpl. by destruct (ascii_dec c d).
Qed.

Lemma contains_char_rev c s :
  Str.contains_char c (String.rev s) = Str.contains_char c s.
Proof.
  induction s as [|d s IH]; [done|].
  rewrite rev_cons, contains_char_app, IH. simpl.
  destruct (ascii_dec c d); [apply orb_true_r|apply orb_false_r].
Qed.

(** Two ways to cut one string share the shorter first part. *)
Lemma app_eq_app a : forall b o1 o2,
  a +:+ b = o1 +:+ o2 ->
  (exists m, a = o1 +:+ m /\ o2 = m +:+ b) \/
  (exists m, o1 = a +:+ m /\ b = m +:+ o2).
Proof.
  induction a as [|c a IH]; intros b o1 o2 H.
  - right. by exists o1.
  - destruct o1 as [|d o1].
    + left. by exists (String c a).
    + rewrite !app_cons in H. injection H as -> H.
      destruct (IH _ _ _ H) as [(m & -> & ->)|(m & -> & ->)];
        [left|right]; by exists m.
Qed.

(** What [strip_tags_go] returns is a text without [<] followed by a text
    without [>]. *)
Lemma strip_tags_go_shape s : forall pending,
  (forall p, pending = Some p -> Str.contains_char ">" p = false) ->
  exists o1 o2,
    Re.strip_tags_go pending s = o1 +:+ o2 /\
    Str.contains_char "<" o1 = false /\ Str.contains_char ">" o2 = false.
Proof.
  induction s as [|c s IH]; intros pending Hp; simpl.
  - destruct pending as [p|]; [|by exists "", ""].
    exists "", (String.rev p). split_and!; [done..|].
    rewrite contains_char_rev. by apply Hp.
  - destruct pending as [p|].
    + destruct (ascii_dec c ">") as [->|Hc].
      * by apply IH.
      * apply IH. intros ? [= <-]. rewrite contains_char_cons.
        destruct (ascii_dec ">" c) as [<-|_]; [done|]. by apply Hp.
    + destruct (ascii_dec c "<") as [->|Hc].
      * apply IH. by intros ? [= <-].
      * destruct (IH None) as (o1 & o2 & -> & H1 & H2); [done|].
        exists (String c o1), o2. split_and!; [done| |done].
        rewrite contains_char_cons. by destruct (ascii_dec "<" c) as [<-|_].
Qed.

(** X4. The text left by the removal of tags holds no tag: wherever it is
    cut, if an opening [<] stands before the cut then no closing [>] stands
    after it. *)
Theorem strip_tags_no_tag s a b :
  Re.strip_tags s = a +:+ b ->
  Str.contains_char "<" a = true ->
  Str.contains_char ">" b = false.
Proof.
  intros Hs Ha.
  destruct (strip_tags_go_shape s None) as (o1 & o2 & Ho & H1 & H2); [done|].
  unfold Re.strip_tags in Hs. rewrite Ho in Hs. symmetry in Hs.
  destruct (app_eq_app _ _ _ _ Hs) as [(m & -> & ->)|(m & -> & ->)].
  - rewrite contains_char_app, H1 in Ha. simpl in Ha.
    rewrite contains_char_app in H2. by apply orb_false_elim in H2 as [_ ?].
  - rewrite contains_char_app in H1. apply orb_false_elim in H1 as [? _].
    congruence.
Qed.

Lemma strip_tags_no_tag_witness :
  Str.contains_char ">" " e" = false.
Proof.
  exact (strip_tags_no_tag "a <b>c</b> d < e" "a c d <" " e" eq_refl eq_refl).
Defined.

(** ** What every entry carries *)

Lemma entry_source_of s web w : entry_source (get_definition s web w) = name s.
Proof.
  unfold get_definition.
  destruct (fetch_page web (page_url s w)) as [soup|] eqn:Hfetch.
  - destruct (body_fetched s web w soup Hfetch) as [[e He]|[exc ->]]; [|done].
    rewrite He. simpl.
    destruct s; simpl in He;
      unfold MerriamWebster.body, MerriamWebster._legacy_get_definition,
        Cambridge.body, Longman.body in He; cbv zeta in He; rewrite Hfetch in He.
    + destruct (Soup.select ".vg" soup); [by injection He as <-|].
      destruct (MerriamWebster.primary_units _); by injection He as <-.
    + by injection He as <-.
    + destruct (last _); [|done]. by injection He as <-.
  - by rewrite (body_fetch_failure s web w Hfetch).
Qed.

(** X5. Whatever a scraper returns, an entry with definitions or an error
    entry, carries the name of the scraper under [source]; an entry with
    definitions also carries the word looked up and the address fetched,
    which is the base address of the scraper followed by the word as it was
    given. *)
Theorem entry_source_name s web w :
  entry_source (get_definition s web w) = name s /\
  forall e, get_definition s web w = Normalized e ->
    word e = w /\ url e = base_url s +:+ w.
Proof.
  unfold get_definition.
  destruct (fetch_page web (page_url s w)) as [soup|] eqn:Hfetch.
  - destruct s; simpl;
      unfold MerriamWebster.body, MerriamWebster._legacy_get_definition,
        Cambridge.body, Longman.body; cbv zeta; rewrite Hfetch.
    + destruct (Soup.select ".vg" soup); [by split; [|intros ? [= <-]]|].
      destruct (MerriamWebster.primary_units _);
        by split; [|intros ? [= <-]].
    + by split; [|intros ? [= <-]].
    + destruct (last _); by split; [|intros ? [= <-]].
  - rewrite (body_fetch_failure s web w Hfetch). by split.
Qed.



(** ** Longman: the entry sections *)

Lemma last_None {A} (l : list A) : last l = None <-> l = [].
Proof.
  split; [|by intros ->].
  induction l as [|x [|y l] IH]; [done..|]. intros H. by apply IH in H.
Qed.

(** X7. On a fetched Longman page the scraper returns an entry with
    definitions exactly when the page has a [.dictentry] section.  Without
    one it returns the error entry of an [UnboundLocalError] raised at
    line 561, where [headword_info] is read without having been assigned. *)
Theorem longman_entry_sections web w soup :
  fetch_page web (page_url LongmanDictionaryScraper w) = Some soup ->
  (Soup.select ".dictentry" soup = [] ->
   get_definition LongmanDictionaryScraper web w
   = Failed {| error_source := "Longman Dictionary";
               error := "cannot access local variable 'headword_info' where it is not associated with a value";
               trace := Some "UnboundLocalError at line 561" |}) /\
  (Soup.select ".dictentry" soup <> [] ->
   exists e, get_definition LongmanDictionaryScraper web w = Normalized e).
Proof.
  intros Hfetch.
  unfold get_definition, body, Longman.body. cbv zeta. rewrite Hfetch.
  split.
  - by intros ->.
  - intros Hne. destruct (last _) eqn:Hlast; [by eauto|].
    apply last_None in Hlast. by destruct (Soup.select ".dictentry" soup).
Qed.

Lemma longman_entry_sections_witness :
  exists e,
    get_definition LongmanDictionaryScraper
      (fun _ => Some longman_two_entries) "combine" = Normalized e.
Proof.
  refine (proj2 (longman_entry_sections (fun _ => Some longman_two_entries)
                   "combine" longman_two_entries eq_refl) _).
  vm_compute. discriminate.
Defined.

Lemma last_map {A B} (f : A -> B) (l : list A) : last (map f l) = f <$> last l.
Proof. induction l as [|x [|y l] IH]; [done..|]. apply IH. Qed.

(** X8. The pronunciation, the frequency marks and the part of speech at
    the top of a Longman entry are those of the last [.dictentry] section
    of the page, and of that section only: what the earlier sections hold
    is not kept. *)
Theorem longman_headword_of_last web w soup e :
  fetch_page web (page_url LongmanDictionaryScraper w) = Some soup ->
  get_definition LongmanDictionaryScraper web w = Normalized e ->
  exists section,
    last (Soup.select ".dictentry" soup) = Some section /\
    pronunciation e
    = (fun pron_elem => clean_text (Soup.text pron_elem))
        <$> Soup.select_one ".PRON" section /\
    headword_pos e
    = (fun pos_elem => clean_text (Soup.text pos_elem))
        <$> Soup.select_one ".POS" section /\
    frequency e
    = match Soup.select ".FREQ" section with
      | [] => None
      | freq_elems => Some (map (fun f => clean_text (Soup.get "title" f)) freq_elems)
      end.
Proof.
  intros Hfetch.
  unfold get_definition, body, Longman.body. cbv zeta. rewrite Hfetch.
  rewrite last_map.
  destruct (last (Soup.select ".dictentry" soup)) as [section|]; [|done].
  simpl. intros [= <-]. exists section. simpl. split_and!; try done.
  by destruct (Soup.select ".FREQ" section).
Qed.

Lemma longman_headword_of_last_witness :
  exists e,
    get_definition LongmanDictionaryScraper
      (fun _ => Some longman_two_entries) "combine" = Normalized e /\
    pronunciation e = None /\ headword_pos e = Some "noun".
Proof.
  destruct (longman_headword_of_last (fun _ => Some longman_two_entries)
              "combine" longman_two_entries _ eq_refl eq_refl)
    as (section & Hlast & Hpron & Hpos & _).
  eexists. split; [reflexivity|].
  vm_compute in Hlast. injection Hlast as <-.
  split; [exact Hpron | exact Hpos].
Defined.

(** ** Longman: the units of a section *)

Lemma longman_unit_of_sense entries u :
  u ∈ flat_map Longman.entry_units entries ->
  exists entry_pos sense_idx sense,
    Longman.sense_unit entry_pos sense_idx sense = Some u.
Proof.
  intros (entry & _ & Hu)%elem_of_flat_map.
  unfold Longman.entry_units, Longman.senses_units in Hu.
  apply elem_of_present, elem_of_lookup_imap in Hu as (i & sense & Hu & _).
  eauto.
Qed.





Lemma nonempty_Some s r : nonempty s = Some r -> r <> "".
Proof.
  unfold nonempty. destruct (Str.truthy s) eqn:Ht; [|done].
  intros [= <-]. by apply truthy_nonempty.
Qed.

Lemma nonempty_list_Some {A} (l r : list A) : nonempty_list l = Some r -> r <> [].
Proof. destruct l; [done|]. by intros [= <-]. Qed.

(** X10. In a Longman unit the optional parts are never empty when they are
    there: a related word and a thesaurus reference are non-empty texts,
    the lists of grammatical patterns and of collocations are non-empty, and
    so are the meaning of a collocation and the examples of a pattern or of
    a collocation. *)
Theorem longman_optional_parts web w e u :
  get_definition LongmanDictionaryScraper web w = Normalized e ->
  u ∈ definitions e ->
  (forall r, related_word u = Some r -> r <> "") /\
  (forall r, thesaurus_ref u = Some r -> r <> "") /\
  (forall ps, grammatical_patterns u = Some ps ->
     ps <> [] /\
     forall p ex, p ∈ ps -> pattern_examples p = Some ex -> ex <> []) /\
  (forall cs, collocations u = Some cs ->
     cs <> [] /\
     forall c, c ∈ cs ->
       (forall m, meaning c = Some m -> m <> "") /\
       (forall ex, collocation_examples c = Some ex -> ex <> [])).
Proof.
  intros (soup & _ & ->)%longman_definitions
         (entry_pos & sense_idx & sense & Hu)%longman_unit_of_sense.
  unfold Longman.sense_unit in Hu.
  destruct (Soup.select_one ".DEF" sense); [|done].
  injection Hu as <-. simpl. split_and!.
  - unfold Longman.sense_related_word.
    destruct (Soup.select_one ".RELATEDWD" sense); [|done].
    intros r. apply nonempty_Some.
  - unfold Longman.sense_thesaurus_ref.
    destruct (Soup.select_one ".Thesref" sense) as [t|]; [|done].
    destruct (Soup.select_one ".REFHWD" t); [|done].
    intros r. apply nonempty_Some.
  - intros ps Hps. split; [by eapply nonempty_list_Some|].
    intros p ex Hp Hex.
    assert (Hin : p ∈ omap Longman.pattern_of (Soup.select ".GramExa" sense)).
    { destruct (omap _ _); [done|]. by injection Hps as <-. }
    apply list_elem_of_omap in Hin as (section & _ & Hsec).
    unfold Longman.pattern_of in Hsec.
    destruct (Soup.select_one ".PROPFORM" section); [|done].
    injection Hsec as <-. by eapply nonempty_list_Some.
  - intros cs Hcs. split; [by eapply nonempty_list_Some|].
    intros c Hc.
    assert (Hin : c ∈ omap Longman.collocation_of (Soup.select ".ColloExa" sense)).
    { destruct (omap _ _); [done|]. by injection Hcs as <-. }
    apply list_elem_of_omap in Hin as (section & _ & Hsec).
    unfold Longman.collocation_of in Hsec.
    destruct (Soup.select_one ".COLLO" section); [|done].
    injection Hsec as <-. simpl. split.
    + destruct (Soup.select_one ".GLOSS" section); [|done].
      intros m. apply nonempty_Some.
    + intros ex. by apply nonempty_list_Some.
Qed.

Example longman_rich_entry :
  get_definition LongmanDictionaryScraper (fun _ => Some longman_rich) "combine"
  = Normalized
      {| source := "Longman Dictionary"; word := "combine";
         url := "https://www.ldoceonline.com/dictionary/combine";
         definitions :=
           [{| definition := "if you combine two things";
               examples := ["Combine all the ingredients.";
                            "Diets work when combined with exercise.";
                            "A number of factors combined."];
               pos := "verb";
               sense_number := Some (SenseIndex 1);
               sense_letter := None;
               grammar := Some "intransitive, transitive";
               translation := None;
               grammatical_patterns :=
                 Some [{| pattern := "combine something with something";
                          pattern_examples :=
                            Some ["Diets work when combined with exercise."] |}];
               collocations :=
                 Some [{| phrase := "combine to do something";
                          meaning := Some "work together";
                          collocation_examples :=
                            Some ["A number of factors combined."] |}];
               related_word := Some "unite";
               thesaurus_ref := Some "mix" |}];
         word_family :=
           Some [("(noun)", ["combination"]); ("(verb)", ["combine"; "recombine"])];
         pronunciation := Some "kəmˈbaɪn";
         frequency := Some ["Top 3000 spoken words"];
         headword_pos := Some "verb";
         corpus_examples :=
           Some [{| title := "Examples from the Corpus";
                    corpus_lines := ["They [combine] well."] |}];
         verb_forms := Some [("Present", "combines"); ("Past", "combined")] |}.
Proof. vm_compute. reflexivity. Qed.

Lemma longman_optional_parts_witness :
  exists e u,
    get_definition LongmanDictionaryScraper (fun _ => Some longman_rich) "combine"
    = Normalized e /\
    u ∈ definitions e /\
    (forall r, related_word u = Some r -> r <> "").
Proof.
  eexists _, _. split; [vm_compute; reflexivity|].
  split; [apply list_elem_of_here|].
  exact (proj1 (longman_optional_parts (fun _ => Some longman_rich) "combine"
                  _ _ eq_refl (list_elem_of_here _ _))).
Defined.

(** ** Longman: word family and verb table *)

Lemma longman_extras web w soup e :
  fetch_page web (page_url LongmanDictionaryScraper w) = Some soup ->
  get_definition LongmanDictionaryScraper web w = Normalized e ->
  word_family e = Longman.word_family_of soup /\
  verb_forms e = Longman.verb_forms_of soup /\
  corpus_examples e = Longman.corpus_examples_of soup.
Proof.
  intros Hfetch.
  unfold get_definition, body, Longman.body. cbv zeta. rewrite Hfetch.
  destruct (last _); [|done]. by intros [= <-].
Qed.











Lemma assign_elem k v d k' v' :
  (k', v') ∈ Longman.assign k v d -> (k', v') ∈ d \/ (k' = k /\ v' = v).
Proof.
  induction d as [|[k0 v0] d IH]; simpl.
  - intros [[= -> ->]|[]%elem_of_nil]%elem_of_cons. by right.
  - destruct (String.eqb_spec k0 k) as [->|Hne].
    + intros [[= -> ->]|Hin]%elem_of_cons; [by right|].
      left. by apply list_elem_of_further.
    + intros [[= -> ->]|Hin]%elem_of_cons; [left; apply list_elem_of_here|].
      destruct (IH Hin) as [?|?]; [left|by right].
      by apply list_elem_of_further.
Qed.

Lemma assign_keys k v d k' :
  k' ∈ map fst (Longman.assign k v d) -> k' ∈ map fst d \/ k' = k.
Proof.
  change (map fst ?l) with (fst <$> l).
  intros ([k0 v0] & -> & [Hin|[-> _]]%assign_elem)%list_elem_of_fmap; [|by right].
  left. apply list_elem_of_fmap. by exists (k0, v0).
Qed.

Lemma assign_NoDup k v d :
  NoDup (map fst d) -> NoDup (map fst (Longman.assign k v d)).
Proof.
  induction d as [|[k0 v0] d IH]; simpl.
  - intros _. apply NoDup_singleton.
  - intros [Hnotin Hdup]%NoDup_cons.
    destruct (String.eqb_spec k0 k) as [->|Hne]; simpl.
    + by apply NoDup_cons.
    + apply NoDup_cons. split; [|by apply IH].
      intros [?|?]%assign_keys; [done|congruence].
Qed.

Lemma lookup_assign key k v d :
  Soup.lookup_attr key (Longman.assign k v d)
  = if String.eqb k key then Some v else Soup.lookup_attr key d.
Proof.
  induction d as [|[k0 v0] d IH]; simpl; [done|].
  destruct (String.eqb_spec k0 k) as [->|Hne]; simpl.
  - by destruct (String.eqb k key).
  - rewrite IH. destruct (String.eqb_spec k0 key) as [->|]; [|done].
    by destruct (String.eqb_spec k key).
Qed.

Lemma verb_rows_ok rows : forall verb_forms,
  NoDup (map fst verb_forms) ->
  (forall k v, (k, v) ∈ verb_forms -> k <> "" /\ v <> "") ->
  NoDup (map fst (fold_left Longman.verb_row rows verb_forms)) /\
  forall k v, (k, v) ∈ fold_left Longman.verb_row rows verb_forms ->
    k <> "" /\ v <> "".
Proof.
  induction rows as [|row rows IH]; intros verb_forms Hdup Hne; [done|].
  simpl. apply IH; unfold Longman.verb_row;
    destruct (Soup.select_one "th" row) as [form_cell|]; try done;
    destruct (Soup.select_one "td" row) as [value_cell|]; try done;
    destruct (Str.truthy _ && Str.truthy _) eqn:Ht; try done.
  - by apply assign_NoDup.
  - apply andb_prop in Ht as [Hk Hv].
    intros k v [?|[-> ->]]%assign_elem; [by apply Hne|].
    split; by apply truthy_nonempty.
Qed.

(** X12. The verb forms of a Longman entry list every form name once;
    neither a name nor a value is empty, and the table is left out of the
    entry when no row gives a form. *)
Theorem longman_verb_forms web w soup e forms :
  fetch_page web (page_url LongmanDictionaryScraper w) = Some soup ->
  get_definition LongmanDictionaryScraper web w = Normalized e ->
  verb_forms e = Some forms ->
  forms <> [] /\
  NoDup (map fst forms) /\
  forall k v, (k, v) ∈ forms -> k <> "" /\ v <> "".
Proof.
  intros Hfetch He Hforms.
  destruct (longman_extras web w soup e Hfetch He) as (_ & Hvf & _).
  rewrite Hvf in Hforms. unfold Longman.verb_forms_of in Hforms.
  destruct (Soup.select_one "table.verbTable" soup) as [verb_table|]; [|done].
  split; [by eapply nonempty_list_Some|].
  destruct (verb_rows_ok (Soup.select "tr" verb_table) [])
    as [Hdup Hne]; [constructor|by intros ? ? ?%elem_of_nil|].
  destruct (fold_left _ _ _); [done|]. by injection Hforms as <-.
Qed.

Lemma longman_verb_forms_witness :
  exists e forms,
    get_definition LongmanDictionaryScraper (fun _ => Some longman_rich) "combine"
    = Normalized e /\
    verb_forms e = Some forms /\
    NoDup (map fst forms).
Proof.
  eexists _, _. split; [vm_compute; reflexivity|]. split; [reflexivity|].
  exact (proj1 (proj2 (longman_verb_forms (fun _ => Some longman_rich) "combine"
                         longman_rich _ _ eq_refl eq_refl eq_refl))).
Defined.

Lemma last_cons_match {A} (x : A) l :
  last (x :: l) = match last l with Some y => Some y | None => Some x end.
Proof.
  destruct l as [|y l]; [done|].
  change (last (x :: y :: l)) with (last (y :: l)).
  destruct (last (y :: l)) eqn:H; [done|]. by apply last_None in H.
Qed.

Lemma verb_row_lookup form verb_forms row :
  Soup.lookup_attr form (Longman.verb_row verb_forms row)
  = match row_value form row with
    | Some v => Some v
    | None => Soup.lookup_attr form verb_forms
    end.
Proof.
  unfold Longman.verb_row, row_value.
  destruct (Soup.select_one "th" row) as [form_cell|]; [|done].
  destruct (Soup.select_one "td" row) as [value_cell|]; [|done].
  cbv zeta. destruct (Str.truthy _ && Str.truthy _); simpl; [|done].
  rewrite lookup_assign. by destruct (String.eqb _ form).
Qed.

Lemma verb_rows_lookup form rows : forall verb_forms,
  Soup.lookup_attr form (fold_left Longman.verb_row rows verb_forms)
  = match last (omap (row_value form) rows) with
    | Some v => Some v
    | None => Soup.lookup_attr form verb_forms
    end.
Proof.
  induction rows as [|row rows IH]; intros verb_forms; [done|].
  simpl. rewrite IH, verb_row_lookup. csimpl.
  destruct (row_value form row) as [v|]; [|done].
  rewrite last_cons_match. by destruct (last _).
Qed.

(** X13. When the verb table names a form in several rows, the entry holds
    the value of the last of these rows: looking a form up in the verb forms
    of the entry gives the value of the last row that names it with both
    cells filled, and nothing when no row does. *)
Theorem longman_verb_forms_last web w soup e form :
  fetch_page web (page_url LongmanDictionaryScraper w) = Some soup ->
  get_definition LongmanDictionaryScraper web w = Normalized e ->
  Soup.lookup_attr form (default [] (verb_forms e))
  = match Soup.select_one "table.verbTable" soup with
    | Some verb_table =>
        last (omap (row_value form) (Soup.select "tr" verb_table))
    | None => None
    end.
Proof.
  intros Hfetch He.
  destruct (longman_extras web w soup e Hfetch He) as (_ & -> & _).
  unfold Longman.verb_forms_of.
  destruct (Soup.select_one "table.verbTable" soup) as [verb_table|]; [|done].
  transitivity (Soup.lookup_attr form
                  (fold_left Longman.verb_row (Soup.select "tr" verb_table) [])).
  { simpl. by destruct (fold_left _ _ _). }
  rewrite verb_rows_lookup. by destruct (last _).
Qed.

Lemma longman_verb_forms_last_witness :
  exists e,
    get_definition LongmanDictionaryScraper (fun _ => Some longman_rich) "combine"
    = Normalized e /\
    Soup.lookup_attr "Present" (default [] (verb_forms e)) = Some "combines".
Proof.
  eexists. split; [vm_compute; reflexivity|].
  exact (longman_verb_forms_last (fun _ => Some longman_rich) "combine"
           longman_rich _ "Present" eq_refl eq_refl).
Defined.

(** ** Merriam-Webster: the units *)




(** X15. The units of the legacy strategy are plain: each has, as its part
    of speech, the cleaned text of the first node [span.fl] of the page, or
    the empty text when the page has none; it has no sense number and no
    letter, and its definition does not begin with the dash that marks a
    cross-reference. *)
Theorem legacy_units_plain soup w u :
  exists e,
    MerriamWebster._legacy_get_definition soup w u = Normalized e /\
    forall d, d ∈ definitions e ->
      pos d = match Soup.select_one "span.fl" soup with
              | Some part_of_speech => clean_text (Soup.text part_of_speech)
              | None => ""
              end /\
      sense_number d = None /\ sense_letter d = None /\
      Str.startswith "—" (definition d) = false.
Proof.
  unfold MerriamWebster._legacy_get_definition.
  eexists. split; [reflexivity|]. simpl.
  unfold MerriamWebster.legacy_units, MerriamWebster.legacy_section.
  intros d (section & _ & Hd)%list_elem_of_omap.
  destruct (Str.truthy _ && negb _) eqn:Ht; [|done].
  apply andb_prop in Ht as [_ Hdash%negb_true_iff].
  injection Hd as <-. by simpl.
Qed.

(** ** Cambridge: the language *)

Lemma cambridge_block_unit_english language word_type block :
  has_translation language = false ->
  Cambridge.block_unit language word_type block
  = Cambridge.block_unit "english" word_type block.
Proof.
  intros H. unfold Cambridge.block_unit, Cambridge.block_translation.
  by rewrite H.
Qed.

Lemma flat_map_ext_all {A B} (f g : A -> list B) l :
  (forall x, f x = g x) -> flat_map f l = flat_map g l.
Proof. intros H. induction l as [|x l IH]; [done|]. simpl. by rewrite H, IH. Qed.

Lemma omap_ext_all {A B} (f g : A -> option B) (l : list A) :
  (forall x, f x = g x) -> omap f l = omap g l.
Proof.
  intros H. induction l as [|x l IH]; [done|]. csimpl. by rewrite H, IH.
Qed.

(** X16. A language that is none of chinese, japanese, korean and italian,
    written exactly so, gives the English dictionary: the Cambridge scraper
    built for it fetches the same page and returns the same entry as the
    scraper built for english. *)
Theorem cambridge_other_language language web w :
  language ∉ bilingual_languages ->
  get_definition (CambridgeDictionaryScraper language) web w
  = get_definition (CambridgeDictionaryScraper "english") web w.
Proof.
  intros Hl.
  assert (Ht : has_translation language = false).
  { destruct (has_translation language) eqn:H; [|done].
    by apply has_translation_bilingual in H. }
  assert (Hname : name (CambridgeDictionaryScraper language) = "Cambridge Dictionary"
                  /\ base_url (CambridgeDictionaryScraper language)
                     = "https://dictionary.cambridge.org/dictionary/english/").
  { unfold has_translation in Ht. simpl.
    destruct (String.eqb language "chinese"); [done|].
    destruct (String.eqb language "japanese"); [done|].
    destruct (String.eqb language "korean"); [done|].
    by destruct (String.eqb language "italian"). }
  destruct Hname as [Hname Hbase].
  assert (Hunits : forall entries,
            Cambridge.entries_units language entries
            = Cambridge.entries_units "english" entries).
  { intros entries. unfold Cambridge.entries_units.
    apply flat_map_ext_all. intros entry.
    unfold Cambridge.entry_units, Cambridge.blocks_units.
    apply omap_ext_all. intros block.
    by apply cambridge_block_unit_english. }
  unfold get_definition, body, Cambridge.body, page_url. cbv zeta.
  rewrite Hname, Hbase. simpl.
  destruct (fetch_page _ _) as [soup|]; [|done]. simpl.
  by rewrite Hunits.
Qed.

Lemma cambridge_other_language_witness :
  get_definition (CambridgeDictionaryScraper "Chinese")
    (fun _ => Some cambridge_untranslated) "combine"
  = get_definition (CambridgeDictionaryScraper "english")
      (fun _ => Some cambridge_untranslated) "combine".
Proof.
  refine (cambridge_other_language "Chinese"
            (fun _ => Some cambridge_untranslated) "combine" _).
  unfold bilingual_languages. rewrite !elem_of_cons, elem_of_nil.
  by intros [?|[?|[?|[?|[]]]]].
Defined.

(** ** The pages of the scrapers *)


(** ** The worker: all dictionaries *)

(** X18. A lookup in all dictionaries queries Merriam-Webster, Longman and
    Cambridge, in this order: the Cambridge scraper registered at start is
    replaced by one for the language of the worker, chinese when none is
    given, and the new one comes last.  The worker emits the combined
    document with the entry of each, whether or not the lookups succeed. *)
Theorem run_async_search_all w d lang web now order :
  Permutation order [0; 1; 2] ->
  run_async {| worker_word := w; dictionary := d; language := lang;
               search_all := true |} web now order
  = finished (Combined
      {| result_word := w; timestamp := now;
         sources :=
           [get_definition MerriamWebsterScraper web w;
            get_definition LongmanDictionaryScraper web w;
            get_definition
              (CambridgeDictionaryScraper
                 (match lang with
                  | Some (String c l) => String c l
                  | _ => "chinese"
                  end)) web w] |}).
Proof.
  intros Hperm. unfold run_async. simpl. unfold get_word_data. simpl.
  rewrite gather_permutation by done.
  by destruct lang as [[|c l]|].
Qed.

Lemma run_async_search_all_witness :
  run_async {| worker_word := "combine"; dictionary := Some "all";
               language := Some "japanese"; search_all := true |}
    no_pages "2025-04-07T13:24:00" [2; 0; 1]
  = finished (Combined
      {| result_word := "combine"; timestamp := "2025-04-07T13:24:00";
         sources :=
           [fetch_failure "Merriam-Webster";
            fetch_failure "Longman Dictionary";
            fetch_failure "Cambridge Dictionary (English-Japanese)"] |}).
Proof.
  refine (run_async_search_all "combine" (Some "all") (Some "japanese")
            no_pages "2025-04-07T13:24:00" [2; 0; 1] _).
  apply Permutation_sym.
  eapply perm_trans; [apply perm_skip, perm_swap|]. apply perm_swap.
Defined.

(** ** The command line: choosing dictionaries *)

Lemma selected_scrapers_spec scrapers dictionary n :
  n ∈ selected_scrapers (get_available_dictionaries scrapers) dictionary <->
  exists d t, d ∈ dictionary /\ t ∈ scrapers /\ name t = n /\
              str_contains (Str.lower d) (Str.lower n) = true.
Proof.
  unfold selected_scrapers, get_available_dictionaries, matching.
  rewrite elem_of_flat_map. split.
  - intros (d & Hd & [Hc Hn]%list_elem_of_filter).
    change (map name scrapers) with (name <$> scrapers) in Hn.
    apply list_elem_of_fmap in Hn as (t & -> & Ht). by exists d, t.
  - intros (d & t & Hd & Ht & <- & Hc). exists d. split; [done|].
    apply list_elem_of_filter. split; [done|].
    change (map name scrapers) with (name <$> scrapers).
    by apply list_elem_of_fmap_2.
Qed.

Lemma filter_scrapers_nonempty dictionary scrapers :
  scrapers <> [] -> filter_scrapers dictionary scrapers <> [].
Proof.
  unfold filter_scrapers.
  destruct dictionary as [|d0 ds]; [done|].
  destruct (selected_scrapers _ (d0 :: ds)) as [|n selected] eqn:Hsel; [done|].
  intros _ Hnil.
  assert (Hn : n ∈ selected_scrapers (get_available_dictionaries scrapers) (d0 :: ds))
    by (rewrite Hsel; apply list_elem_of_here).
  apply selected_scrapers_spec in Hn as (d & t & _ & Ht & <- & _).
  assert (Hin : t ∈ filter (fun s => Str.mem (name s) (name t :: selected) = true)
                           scrapers).
  { apply list_elem_of_filter. split; [|done]. simpl. by rewrite String.eqb_refl. }
  rewrite Hnil in Hin. by apply elem_of_nil in Hin.
Qed.

(** X19. The [--dictionary] options never leave the scraper without a
    dictionary, and never reorder the dictionaries: the scrapers kept are a
    sub-list of the registered ones, not empty when those are not. *)
Theorem filter_scrapers_kept dictionary scrapers :
  sublist (filter_scrapers dictionary scrapers) scrapers /\
  (scrapers <> [] -> filter_scrapers dictionary scrapers <> []).
Proof.
  split; [|apply filter_scrapers_nonempty].
  unfold filter_scrapers.
  destruct dictionary as [|d0 ds]; [done|].
  destruct (selected_scrapers _ (d0 :: ds)); [done|]. apply sublist_filter.
Qed.

(** X20. A registered scraper is kept by the [--dictionary] options when
    one of them, in lower case, occurs in its name in lower case; and all
    the scrapers are kept when no option occurs in the name of any of them,
    as when no option is given. *)
Theorem filter_scrapers_spec dictionary scrapers s :
  s ∈ filter_scrapers dictionary scrapers <->
  s ∈ scrapers /\
  ((forall d t, d ∈ dictionary -> t ∈ scrapers ->
      str_contains (Str.lower d) (Str.lower (name t)) = false) \/
   exists d, d ∈ dictionary /\
     str_contains (Str.lower d) (Str.lower (name s)) = true).
Proof.
  unfold filter_scrapers.
  destruct dictionary as [|d0 ds].
  { split; [|by intros [? _]]. intros Hs. split; [done|]. left.
    by intros ? ? ?%elem_of_nil. }
  destruct (selected_scrapers _ (d0 :: ds)) as [|n selected] eqn:Hsel.
  - split; [|by intros [? _]]. intros Hs. split; [done|]. left.
    intros d t Hd Ht. destruct (str_contains _ _) eqn:Hc; [|done].
    assert (name t ∈ selected_scrapers (get_available_dictionaries scrapers)
                       (d0 :: ds)) as Hin
      by (apply selected_scrapers_spec; by exists d, t).
    rewrite Hsel in Hin. by apply elem_of_nil in Hin.
  - rewrite list_elem_of_filter, mem_spec, <- Hsel, selected_scrapers_spec.
    split.
    + intros [(d & t & Hd & _ & _ & Hc) Hs]. split; [done|]. right. by exists d.
    + intros [Hs [Hnone|(d & Hd & Hc)]].
      * assert (n ∈ selected_scrapers (get_available_dictionaries scrapers)
                      (d0 :: ds)) as Hn
          by (rewrite Hsel; apply list_elem_of_here).
        apply selected_scrapers_spec in Hn as (d & t & Hd & Ht & <- & Hc).
        by rewrite (Hnone d t Hd Ht) in Hc.
      * split; [|done]. by exists d, s.
Qed.

Example filter_scrapers_ex :
  map name (filter_scrapers ["LONG"; "webster"; "oxford"] initialize)
  = ["Merriam-Webster"; "Longman Dictionary"] /\
  filter_scrapers ["oxford"] initialize = initialize.
Proof. by vm_compute. Qed.

(** X21. The document [main] prints has one source for each scraper the
    options keep, in registration order, and at least one: the look-up never
    falls back to registering the dictionaries again. *)
Theorem main_result_sources w dictionary web now order :
  Permutation order (seq 0 (length (filter_scrapers dictionary initialize))) ->
  sources (main_result w dictionary web now order)
  = map (fun s => get_definition s web w) (filter_scrapers dictionary initialize) /\
  sources (main_result w dictionary web now order) <> [].
Proof.
  intros Hperm. unfold main_result.
  pose proof (filter_scrapers_nonempty dictionary initialize) as Hne.
  assert (Hkept : ensure_initialized (filter_scrapers dictionary initialize)
                  = filter_scrapers dictionary initialize).
  { destruct (filter_scrapers dictionary initialize); [|done]. by destruct Hne. }
  rewrite get_word_data_gathered by (by rewrite Hkept).
  rewrite Hkept. split; [done|].
  destruct (filter_scrapers dictionary initialize); [|done]. by destruct Hne.
Qed.

Lemma main_result_sources_witness :
  sources (main_result "combine" ["cambridge"] no_pages "2025-04-07T13:24:00" [0])
  = [fetch_failure "Cambridge Dictionary (English-Chinese)"].
Proof.
  exact (proj1 (main_result_sources "combine" ["cambridge"] no_pages
                  "2025-04-07T13:24:00" [0] (Permutation_refl _))).
Defined.

(** ** The application: the Cambridge tab *)

(** X22. When the Cambridge tab is opened with results on display, and the
    entry it shows was fetched for the language the selector shows, the
    application starts a new Cambridge look-up exactly when that language is
    English Only: the name of the English dictionary does not hold the word
    English, which the test of [on_tab_changed] takes for a change of
    language. *)
Theorem on_tab_changed_same_language item web w :
  item ∈ lang_selector_items ->
  on_tab_changed_searches true 2
    (Some (get_definition (CambridgeDictionaryScraper (selected_lang item)) web w))
    item
  = String.eqb item "English Only".
Proof.
  intros Hitem. unfold on_tab_changed_searches. cbv zeta.
  rewrite entry_source_of.
  unfold lang_selector_items in Hitem.
  rewrite !elem_of_cons, elem_of_nil in Hitem.
  by destruct Hitem as [->|[->|[->|[->|[->|[]]]]]]; vm_compute.
Qed.

Lemma on_tab_changed_same_language_witness :
  on_tab_changed_searches true 2
    (Some (get_definition (CambridgeDictionaryScraper (selected_lang "English Only"))
             no_pages "combine"))
    "English Only"
  = true.
Proof.
  refine (on_tab_changed_same_language "English Only" no_pages "combine" _).
  unfold lang_selector_items. rewrite !elem_of_cons. auto 6.
Defined.

(** ** Merriam-Webster: definition texts *)

(** X23. No unit of a Merriam-Webster entry has an empty definition: both
    the strategy by blocks and the legacy strategy test the text before they
    append a unit. *)
Theorem merriam_units_have_text web w e u :
  get_definition MerriamWebsterScraper web w = Normalized e ->
  u ∈ definitions e -> definition u <> "".
Proof.
  unfold get_definition, body, MerriamWebster.body,
    MerriamWebster._legacy_get_definition. cbv zeta.
  destruct (fetch_page _ _) as [soup|]; [|done].
  destruct (Soup.select ".vg" soup) as [|b bs].
  - intros [= <-]. apply merriam_legacy_nonempty.
  - destruct (MerriamWebster.primary_units (b :: bs)) as [|d ds] eqn:Hp.
    + intros [= <-]. apply merriam_legacy_nonempty.
    + intros [= <-]. simpl. rewrite <- Hp. apply merriam_primary_nonempty.
Qed.

Lemma merriam_units_have_text_witness :
  exists e u,
    get_definition MerriamWebsterScraper (fun _ => Some merriam_two_senses) "test"
    = Normalized e /\
    u ∈ definitions e /\ definition u <> "".
Proof.
  eexists _, _. split; [vm_compute; reflexivity|].
  split; [apply list_elem_of_here|].
  exact (merriam_units_have_text (fun _ => Some merriam_two_senses) "test"
           _ _ eq_refl (list_elem_of_here _ _)).
Defined.

(** ** Longman: corpus examples and speaker icons *)









